(** * Tax-return core of the tax-app backend: extraction, reconciliation, computation

    The development embeds two pieces of the TypeScript backend:

    - the [/extract-tax-info] route handler of the Gemini document routes
      (the JSON extraction from the model's reply, the merge loop over the
      processed documents and the missing-field check), and
    - [generate1040Form] of the PDF generation service (the income lines,
      the standard deduction, the taxable income and the bracket tax).

    Around them it embeds the code they meet: the selection of the
    requested documents shared by [/extract-first-letters] and
    [/extract-tax-info], the [/complete-tax-form] route, [analyzeDocuments]
    of the document analysis service, the validation of the server's
    [/api/generate-1040] behind the sanitizing middleware, the history of
    the [/chat] route, and on the client the form of the analysis page and
    its selection of documents.

    JavaScript values are modelled by the inductive type [JsVal]; objects
    used as dictionaries are finite maps from property names to values.
    The numbers of the tax computation are the IEEE 754 binary64 numbers
    the code computes with (module [Binary64]); the module [Form1040] has
    the same computation over exact rationals, the idealised reading the
    specification words, and is what the binary64 results are compared
    with.  The numbers inside [JsVal], which the handlers only test for
    truthiness and copy, are exact rationals.  A string is a sequence of
    code units below 256. *)

From Stdlib Require Import Ascii QArith Qround Qminmax Lqa.
From Stdlib Require PrimFloat FloatOps SpecFloat FloatAxioms Uint63.
From stdpp Require Import gmap strings list fin_maps pretty.

Local Open Scope string_scope.
Local Open Scope list_scope.

(** ** JavaScript values *)

Module Js.

(** The values that flow through the handler.  [JBuiltin] stands for the
    members every plain object inherits from [Object.prototype] (functions
    and the prototype object itself): they are truthy and are not [null]. *)
#[warnings="-register-all"]
Inductive JsVal : Type :=
| JUndefined
| JNull
| JBool (b : bool)
| JNum (q : Q)
| JStr (s : string)
| JArr (items : list JsVal)
| JObj (props : list (string * JsVal))
| JBuiltin.

(** [ToBoolean]: [undefined], [null], [false], [0] and the empty string are
    falsy, everything else is truthy. *)
Definition truthy (v : JsVal) : bool :=
  match v with
  | JUndefined | JNull => false
  | JBool b => b
  | JNum q => negb (Qeq_bool q 0)
  | JStr s => negb (String.eqb s EmptyString)
  | JArr _ | JObj _ | JBuiltin => true
  end.

(** [v === null] *)
Definition is_null (v : JsVal) : bool :=
  match v with JNull => true | _ => false end.

(** The property names a plain object literal inherits from
    [Object.prototype]. *)
Definition Object_prototype_keys : list string :=
  [ "constructor"; "__defineGetter__"; "__defineSetter__"; "hasOwnProperty";
    "__lookupGetter__"; "__lookupSetter__"; "isPrototypeOf";
    "propertyIsEnumerable"; "toString"; "valueOf"; "__proto__";
    "toLocaleString" ].

Definition inherited (k : string) : bool :=
  bool_decide (k ∈ Object_prototype_keys).

(** [obj[key]] on a plain object: the own property when there is one,
    otherwise what [Object.prototype] provides, otherwise [undefined]. *)
Definition get (obj : gmap string JsVal) (key : string) : JsVal :=
  match obj !! key with
  | Some v => v
  | None => if inherited key then JBuiltin else JUndefined
  end.

Definition chars (s : string) : list JsVal :=
  (fun c => JStr (String c EmptyString)) <$> String.list_ascii_of_string s.

Definition indexed (l : list JsVal) : list (string * JsVal) :=
  imap (fun i v => (pretty i, v)) l.

(** [Object.entries(v)]: the own enumerable string-keyed properties.
    [None] is the [TypeError] thrown for [undefined] and [null]. *)
Definition Object_entries (v : JsVal) : option (list (string * JsVal)) :=
  match v with
  | JUndefined | JNull => None
  | JObj props => Some props
  | JArr items => Some (indexed items)
  | JStr s => Some (indexed (chars s))
  | JBool _ | JNum _ | JBuiltin => Some []
  end.

End Js.
Import Js.

(** ** The reconciler: merge loop and missing-field check of [/extract-tax-info] *)

(** One element of [processedDocs].  An absent property is [JUndefined]. *)
Record ProcessedDoc : Type := mkDoc {
  analysis : JsVal;
  error : JsVal;
  rawText : JsVal
}.

Definition requiredFields : list string :=
  [ "firstName"; "lastName"; "ssn"; "filingStatus";
    "address"; "city"; "state"; "zip";
    "wages"; "interest"; "dividends"; "capitalGains" ].

(** [!formData[key] || formData[key] === null] *)
Definition not_set (formData : gmap string JsVal) (key : string) : bool :=
  negb (truthy (get formData key)) || is_null (get formData key).

(** Body of the inner [forEach]: one [[key, value]] entry. *)
Definition merge_entry (formData : gmap string JsVal) (kv : string * JsVal)
  : gmap string JsVal :=
  let '(key, value) := kv in
  if negb (is_null value) && not_set formData key
  then <[key := value]> formData
  else formData.

(** [doc.analysis && !doc.error] *)
Definition mergeable (doc : ProcessedDoc) : bool :=
  truthy (analysis doc) && negb (truthy (error doc)).

(** Body of the outer [forEach]: one processed document.  [None] when
    [Object.entries] throws. *)
Definition merge_doc (formData : gmap string JsVal) (doc : ProcessedDoc)
  : option (gmap string JsVal) :=
  if mergeable doc then
    entries ← Object_entries (analysis doc);
    Some (fold_left merge_entry entries formData)
  else Some formData.

(** [processedDocs.forEach(...)] from a given [formData]. *)
Fixpoint merge_docs (docs : list ProcessedDoc) (formData : gmap string JsVal)
  : option (gmap string JsVal) :=
  match docs with
  | [] => Some formData
  | doc :: rest => formData' ← merge_doc formData doc; merge_docs rest formData'
  end.

(** [requiredFields.forEach(field => ... missingFields.push(field))] *)
Definition check_missing (formData : gmap string JsVal) : list string :=
  fold_left
    (fun missingFields field =>
       if not_set formData field then missingFields ++ [field] else missingFields)
    requiredFields [].

(** What the handler answers with after the documents were processed:
    [{ success: true, formData, missingFields, documents }]; [None] stands
    for an exception reaching the handler's [catch] (status 500). *)
Record Reconciled : Type := mkReconciled {
  formData : gmap string JsVal;
  missingFields : list string;
  documents : list ProcessedDoc
}.

Definition reconcile (processedDocs : list ProcessedDoc) : option Reconciled :=
  fd ← merge_docs processedDocs ∅;
  Some (mkReconciled fd (check_missing fd) processedDocs).

(** ** The extraction adapter: from the model's reply to a processed document *)

Module Str.

Definition LF : ascii := "010"%char.
Definition fence_open : string := "```json" ++ String LF EmptyString.
Definition fence_close : string := String LF "```".

(** The white space [String.prototype.trim] removes, among the code units
    below 256: TAB, LF, VT, FF, CR, the space and the no-break space
    U+00A0. *)
Definition is_space (c : ascii) : bool :=
  let n := nat_of_ascii c in
  ((9 <=? n)%nat && (n <=? 13)%nat) || (n =? 32)%nat || (n =? 160)%nat.

Fixpoint trim_start (s : string) : string :=
  match s with
  | EmptyString => EmptyString
  | String c rest => if is_space c then trim_start rest else s
  end.

Fixpoint trim_end (s : string) : string :=
  match s with
  | EmptyString => EmptyString
  | String c rest =>
      match trim_end rest with
      | EmptyString => if is_space c then EmptyString else String c EmptyString
      | rest' => String c rest'
      end
  end.

Definition trim (s : string) : string := trim_end (trim_start s).

(** Position of the last occurrence of the character [c] in [s]. *)
Fixpoint last_index (c : ascii) (s : string) : option nat :=
  match s with
  | EmptyString => None
  | String d rest =>
      match last_index c rest with
      | Some j => Some (S j)
      | None => if Ascii.eqb c d then Some 0%nat else None
      end
  end.

End Str.

(** The array a successful [String.prototype.match] returns: the whole
    match and the first capture group ([None] when the pattern has none). *)
Record RegExpMatch : Type := mkMatch {
  whole : string;
  group1 : option string
}.

(** [analysisText.match(/```json\n([\s\S]*?)\n```/)]: the leftmost opening
    fence that is followed by a closing one, with the shortest body. *)
Definition match_fenced (text : string) : option RegExpMatch :=
  i ← String.index 0 Str.fence_open text;
  j ← String.index (i + 8) Str.fence_close text;
  Some (mkMatch (String.substring i (j + 4 - i) text)
                (Some (String.substring (i + 8) (j - (i + 8)) text))).

(** [analysisText.match(/{[\s\S]*}/)]: from the first opening brace to the
    last closing brace after it. *)
Definition match_braces (text : string) : option RegExpMatch :=
  i ← String.index 0 "{" text;
  j ← Str.last_index "}" (String.substring (S i) (String.length text) text);
  Some (mkMatch (String.substring i (j + 2) text) None).

(** [analysisText.match(fenced) || analysisText.match(braces)] *)
Definition jsonMatch (analysisText : string) : option RegExpMatch :=
  match match_fenced analysisText with
  | Some m => Some m
  | None => match_braces analysisText
  end.

(** [jsonMatch[1] || jsonMatch[0]]: an empty capture is falsy. *)
Definition jsonStr_of (m : RegExpMatch) : string :=
  match group1 m with
  | Some g => if String.eqb g EmptyString then whole m else g
  | None => whole m
  end.

Definition parse_failed_message : string := "Failed to parse analysis results".
Definition no_json_message : string :=
  "Could not parse structured data from document".

(** What happened to one document before its reply could be read: the model
    replied with [analysisText], or something threw ([message] is the
    [Error]'s message, [None] when what was thrown is no [Error]). *)
Inductive Outcome : Type :=
| Replied (analysisText : string)
| Threw (message : option string).

(** The document the [catch (jsonError)] returns. *)
Definition failed (analysisText : string) : ProcessedDoc :=
  mkDoc JUndefined (JStr parse_failed_message) (JStr analysisText).

Section Extraction.

(** [JSON.parse]: [None] is the [SyntaxError] it throws. *)
Variable JSON_parse : string -> option JsVal.

(** [Document.findOneAndUpdate(..., { analysis })]: [false] when the
    promise rejects. *)
Variable findOneAndUpdate : JsVal -> bool.

(** The inner [try]/[catch] of the per-document callback, from
    [analysisText] on.  The [None] of the first [match] is the
    [let analysisData] fallback; the inner [None]s are the exceptions the
    [catch (jsonError)] turns into an error document. *)
Definition process_reply (analysisText : string) : ProcessedDoc :=
  let analysisData :=
    match jsonMatch analysisText with
    | Some m => JSON_parse (Str.trim (jsonStr_of m))
    | None => Some (JObj [("error", JStr no_json_message)])
    end in
  match analysisData with
  | Some data =>
      if findOneAndUpdate data
      then mkDoc data JUndefined JUndefined
      else failed analysisText
  | None => failed analysisText
  end.

(** The per-document callback of [documents.map]: everything before
    [analysisText] (the missing location, the download, the call of the
    model) may throw, which the outer [catch (docError)] turns into an
    error document. *)
Definition process_doc (outcome : Outcome) : ProcessedDoc :=
  match outcome with
  | Replied analysisText => process_reply analysisText
  | Threw message =>
      mkDoc JUndefined
            (JStr ("Processing error: " ++ default "Unknown error" message))
            JUndefined
  end.

(** The whole route once every document was processed: the merge and the
    missing-field check over [processedDocs]. *)
Definition extract_tax_info (outcomes : list Outcome) : option Reconciled :=
  reconcile (process_doc <$> outcomes).

End Extraction.

(** ** A concrete [JSON.parse]

    The theorems about the extraction hold for every [JSON_parse]; this
    reader of the JSON grammar makes the definitions run on concrete
    replies.  It covers [null], the booleans, numbers (read as exact
    rationals), strings with the single-character escapes, arrays and
    objects (a repeated key keeps its place and takes the last value).
    Unicode escapes are not covered: it rejects them. *)

Module Json.

Definition DQ : ascii := "034"%char.
Definition BS : ascii := "092"%char.

Definition is_ws (c : ascii) : bool :=
  let n := nat_of_ascii c in
  (n =? 32)%nat || (n =? 9)%nat || (n =? 10)%nat || (n =? 13)%nat.

Fixpoint skip_ws (l : list ascii) : list ascii :=
  match l with
  | c :: rest => if is_ws c then skip_ws rest else l
  | [] => []
  end.

Definition digit (c : ascii) : option Z :=
  let n := nat_of_ascii c in
  if ((48 <=? n)%nat && (n <=? 57)%nat) then Some (Z.of_nat (n - 48)) else None.

Definition unescape (c : ascii) : option ascii :=
  let n := nat_of_ascii c in
  if (n =? 34)%nat then Some DQ
  else if (n =? 92)%nat then Some BS
  else if (n =? 47)%nat then Some "/"%char
  else if (n =? 98)%nat then Some "008"%char
  else if (n =? 102)%nat then Some "012"%char
  else if (n =? 110)%nat then Some "010"%char
  else if (n =? 114)%nat then Some "013"%char
  else if (n =? 116)%nat then Some "009"%char
  else None.

(** The characters of a string literal after its opening quote. *)
Fixpoint read_string (l : list ascii) : option (string * list ascii) :=
  match l with
  | [] => None
  | c :: rest =>
      if Ascii.eqb c DQ then Some (EmptyString, rest)
      else if Ascii.eqb c BS then
        match rest with
        | e :: rest' =>
            d ← unescape e;
            '(s, tl) ← read_string rest';
            Some (String d s, tl)
        | [] => None
        end
      else if (nat_of_ascii c <? 32)%nat then None
      else '(s, tl) ← read_string rest; Some (String c s, tl)
  end.

(** A run of decimal digits: its value, its length and the rest. *)
Fixpoint read_digits (l : list ascii) (acc : Z) (len : nat)
  : Z * nat * list ascii :=
  match l with
  | c :: rest =>
      match digit c with
      | Some d => read_digits rest (10 * acc + d)%Z (S len)
      | None => (acc, len, l)
      end
  | [] => (acc, len, [])
  end.

Definition pow10 (e : Z) : Q :=
  if (0 <=? e)%Z then inject_Z (10 ^ e) else / inject_Z (10 ^ (- e)).

Definition read_exponent (l : list ascii) : option (Z * list ascii) :=
  match l with
  | c :: rest =>
      if Ascii.eqb c "e" || Ascii.eqb c "E" then
        let '(neg, rest1) :=
          match rest with
          | s :: rest' =>
              if Ascii.eqb s "-" then (true, rest')
              else if Ascii.eqb s "+" then (false, rest')
              else (false, rest)
          | [] => (false, rest)
          end in
        let '(e, n, tl) := read_digits rest1 0%Z 0%nat in
        if (n =? 0)%nat then None
        else Some (if neg then (- e)%Z else e, tl)
      else Some (0%Z, l)
  | [] => Some (0%Z, [])
  end.

Definition read_fraction (l : list ascii) : option (Z * nat * list ascii) :=
  match l with
  | c :: rest =>
      if Ascii.eqb c "." then
        let '(f, n, tl) := read_digits rest 0%Z 0%nat in
        if (n =? 0)%nat then None else Some (f, n, tl)
      else Some (0%Z, 0%nat, l)
  | [] => Some (0%Z, 0%nat, [])
  end.

Definition read_number (l : list ascii) : option (Q * list ascii) :=
  let '(neg, l1) :=
    match l with
    | c :: rest => if Ascii.eqb c "-" then (true, rest) else (false, l)
    | [] => (false, l)
    end in
  let '(i, n, l2) := read_digits l1 0%Z 0%nat in
  let leading_zero :=
    match l1 with c :: _ => Ascii.eqb c "0" | [] => false end in
  if (n =? 0)%nat || (leading_zero && (1 <? n)%nat) then None
  else
    '(f, fl, l3) ← read_fraction l2;
    '(e, l4) ← read_exponent l3;
    let mantissa := (i * 10 ^ Z.of_nat fl + f)%Z in
    let q := Qred (inject_Z mantissa * pow10 (e - Z.of_nat fl)) in
    Some (if neg then Qred (- q) else q, l4).

(** Property assignment while the object is built. *)
Fixpoint set_prop (props : list (string * JsVal)) (k : string) (v : JsVal)
  : list (string * JsVal) :=
  match props with
  | [] => [(k, v)]
  | (k', v') :: rest =>
      if String.eqb k k' then (k', v) :: rest else (k', v') :: set_prop rest k v
  end.

Definition literal (word : string) (l : list ascii) : option (list ascii) :=
  let w := String.list_ascii_of_string word in
  if bool_decide (take (length w) l = w) then Some (drop (length w) l) else None.

Fixpoint read_value (fuel : nat) (l : list ascii) : option (JsVal * list ascii) :=
  match fuel with
  | O => None
  | S fuel' =>
      match skip_ws l with
      | [] => None
      | c :: rest =>
          if Ascii.eqb c "n" then tl ← literal "null" (c :: rest); Some (JNull, tl)
          else if Ascii.eqb c "t" then
            tl ← literal "true" (c :: rest); Some (JBool true, tl)
          else if Ascii.eqb c "f" then
            tl ← literal "false" (c :: rest); Some (JBool false, tl)
          else if Ascii.eqb c DQ then
            '(s, tl) ← read_string rest; Some (JStr s, tl)
          else if Ascii.eqb c "[" then
            match skip_ws rest with
            | d :: rest' =>
                if Ascii.eqb d "]" then Some (JArr [], rest')
                else '(items, tl) ← read_items fuel' rest []; Some (JArr items, tl)
            | [] => None
            end
          else if Ascii.eqb c "{" then
            match skip_ws rest with
            | d :: rest' =>
                if Ascii.eqb d "}" then Some (JObj [], rest')
                else '(props, tl) ← read_members fuel' rest []; Some (JObj props, tl)
            | [] => None
            end
          else '(q, tl) ← read_number (c :: rest); Some (JNum q, tl)
      end
  end
with read_items (fuel : nat) (l : list ascii) (acc : list JsVal)
  : option (list JsVal * list ascii) :=
  match fuel with
  | O => None
  | S fuel' =>
      '(v, tl) ← read_value fuel' l;
      match skip_ws tl with
      | c :: rest =>
          if Ascii.eqb c "," then read_items fuel' rest (acc ++ [v])
          else if Ascii.eqb c "]" then Some (acc ++ [v], rest)
          else None
      | [] => None
      end
  end
with read_members (fuel : nat) (l : list ascii) (acc : list (string * JsVal))
  : option (list (string * JsVal) * list ascii) :=
  match fuel with
  | O => None
  | S fuel' =>
      match skip_ws l with
      | q :: rest =>
          if Ascii.eqb q DQ then
            '(k, tl) ← read_string rest;
            match skip_ws tl with
            | c :: rest1 =>
                if Ascii.eqb c ":" then
                  '(v, tl1) ← read_value fuel' rest1;
                  match skip_ws tl1 with
                  | d :: rest2 =>
                      if Ascii.eqb d "," then read_members fuel' rest2 (set_prop acc k v)
                      else if Ascii.eqb d "}" then Some (set_prop acc k v, rest2)
                      else None
                  | [] => None
                  end
                else None
            | [] => None
            end
          else None
      | [] => None
      end
  end.

Definition parse (text : string) : option JsVal :=
  let l := String.list_ascii_of_string text in
  '(v, tl) ← read_value (S (length l)) l;
  match skip_ws tl with
  | [] => Some v
  | _ :: _ => None
  end.

(** A string literal of JSON text: [s] between double quotes. *)
Definition quoted (s : string) : string :=
  String DQ (s ++ String DQ EmptyString).

End Json.

(** ** The tax computation of [generate1040Form] over exact rationals

    The lines of the form with every amount an exact rational and every
    operation exact.  This is the idealised reading of the computation; the
    module [Binary64] below has the same lines on the binary64 numbers the
    code computes with. *)

Module Form1040.

Local Open Scope Q_scope.

(** [interface Form1040Data]; an optional property that is absent is
    [None]. *)
Record Form1040Data : Type := mkData {
  firstName : string;
  lastName : string;
  ssn : string;
  filingStatus : string;
  address : string;
  city : string;
  state : string;
  zip : string;
  wages : Q;
  interest : Q;
  dividends : Q;
  capitalGains : Q;
  otherIncome : option Q;
  adjustments : option Q;
  deductions : option Q
}.

(** [x || d] for an optional number [x]: [undefined] and [0] are falsy. *)
Definition or_else (x : option Q) (d : Q) : Q :=
  match x with
  | Some q => if Qeq_bool q 0 then d else q
  | None => d
  end.

(** [Math.max(0, x)] *)
Definition Math_max0 (x : Q) : Q := Qmax 0 x.

(** [Math.round(x)]: the nearest integer, a tie going up. *)
Definition Math_round (x : Q) : Z := Qfloor (x + (1 # 2)).

Section Lines.

Variable data : Form1040Data.

(** Amount of the item labelled [9. Total income]. *)
Definition totalIncome : Q :=
  wages data + interest data + dividends data + capitalGains data
  + or_else (otherIncome data) 0.

(** Amount of the item labelled [10. Adjustments to income]. *)
Definition adjustmentsToIncome : Q := or_else (adjustments data) 0.

(** Amount of the item labelled [11. Adjusted gross income]:
    [adjustedItems[1].amount]. *)
Definition adjustedGrossIncome : Q :=
  (wages data + interest data + dividends data + capitalGains data
   + or_else (otherIncome data) 0)
  - or_else (adjustments data) 0.

Definition standardDeduction : Q :=
  if String.eqb (filingStatus data) "single"
     || String.eqb (filingStatus data) "married_separate"
  then 12950
  else if String.eqb (filingStatus data) "head_of_household"
       then 19400
       else 25900.

(** [data.deductions || standardDeduction]: the amount of the item labelled
    [12. Standard deduction or itemized deductions], and what is
    subtracted from the adjusted gross income. *)
Definition deductionApplied : Q :=
  or_else (deductions data) standardDeduction.

Definition taxableIncome : Q :=
  Math_max0 (adjustedGrossIncome - deductionApplied).

Definition estimatedTax : Q :=
  if Qle_bool taxableIncome 10275 then
    taxableIncome * (10 # 100)
  else if Qle_bool taxableIncome 41775 then
    (102750 # 100) + (taxableIncome - 10275) * (12 # 100)
  else if Qle_bool taxableIncome 89075 then
    (480750 # 100) + (taxableIncome - 41775) * (22 # 100)
  else if Qle_bool taxableIncome 170050 then
    (1521350 # 100) + (taxableIncome - 89075) * (24 # 100)
  else if Qle_bool taxableIncome 215950 then
    (3464750 # 100) + (taxableIncome - 170050) * (32 # 100)
  else if Qle_bool taxableIncome 539900 then
    (4933550 # 100) + (taxableIncome - 215950) * (35 # 100)
  else
    162718 + (taxableIncome - 539900) * (37 # 100).

(** Amount of the item labelled [15. Tax]. *)
Definition tax : Z := Math_round estimatedTax.

End Lines.

(** *** The computation as the specification words it *)

(** The marginal rate schedule: upper threshold and rate of each bracket
    but the last, and the rate above the last threshold. *)
Definition brackets : list (Q * Q) :=
  [ (10275, 10 # 100); (41775, 12 # 100); (89075, 22 # 100);
    (170050, 24 # 100); (215950, 32 # 100); (539900, 35 # 100) ].
Definition top_rate : Q := 37 # 100.

(** The part of [income] that lies between [lo] and [hi]. *)
Definition slice (lo hi income : Q) : Q := Qmax 0 (Qmin income hi - lo).

(** Progressive tax: every bracket taxes, at its own rate, the part of the
    income that lies in it. *)
Fixpoint progressive (lo : Q) (bs : list (Q * Q)) (income : Q) : Q :=
  match bs with
  | [] => top_rate * Qmax 0 (income - lo)
  | (hi, rate) :: rest => rate * slice lo hi income + progressive hi rest income
  end.

Definition bracket_tax (income : Q) : Q := progressive 0 brackets income.

(** *** Concrete records *)

Definition sample (status : string) (wages : Q) (adjustments deductions : option Q)
  : Form1040Data :=
  mkData "Ada" "Byron" "123456789" status "1 Main St" "Springfield" "IL" "62701"
         wages 1200 850 3000 None adjustments deductions.

End Form1040.

(** ** The tax computation of [generate1040Form] on binary64 numbers

    The lines of the form as the code computes them: every amount is an
    IEEE 754 binary64 number, every operation is rounded to the nearest
    binary64 number, and NaN and the infinities take part. *)

Module Binary64.

Import PrimFloat.
Local Open Scope float_scope.

(** [interface Form1040Data]; an optional property that is absent is
    [None]. *)
Record Form1040Data : Type := mkData {
  firstName : string;
  lastName : string;
  ssn : string;
  filingStatus : string;
  address : string;
  city : string;
  state : string;
  zip : string;
  wages : float;
  interest : float;
  dividends : float;
  capitalGains : float;
  otherIncome : option float;
  adjustments : option float;
  deductions : option float
}.

(** The numbers that are falsy: [0], [-0] and NaN. *)
Definition falsy (x : float) : bool := is_zero x || is_nan x.

(** [x || d] for an optional number [x]. *)
Definition or_else (x : option float) (d : float) : float :=
  match x with
  | Some f => if falsy f then d else f
  | None => d
  end.

(** [Math.max(0, x)]: NaN for NaN, and [0] for [-0]. *)
Definition Math_max0 (x : float) : float :=
  if is_nan x then x else if 0 <? x then x else 0.

Section Lines.

Variable data : Form1040Data.

(** Amount of the item labelled [9. Total income]. *)
Definition totalIncome : float :=
  wages data + interest data + dividends data + capitalGains data
  + or_else (otherIncome data) 0.

(** Amount of the item labelled [10. Adjustments to income]. *)
Definition adjustmentsToIncome : float := or_else (adjustments data) 0.

(** Amount of the item labelled [11. Adjusted gross income]:
    [adjustedItems[1].amount]. *)
Definition adjustedGrossIncome : float :=
  (wages data + interest data + dividends data + capitalGains data
   + or_else (otherIncome data) 0)
  - or_else (adjustments data) 0.

Definition standardDeduction : float :=
  if String.eqb (filingStatus data) "single"
     || String.eqb (filingStatus data) "married_separate"
  then 12950
  else if String.eqb (filingStatus data) "head_of_household"
       then 19400
       else 25900.

(** [data.deductions || standardDeduction]: the amount of the item labelled
    [12. Standard deduction or itemized deductions], and what is
    subtracted from the adjusted gross income. *)
Definition deductionApplied : float :=
  or_else (deductions data) standardDeduction.

(** Amount of the item labelled [14. Taxable income]. *)
Definition taxableIncome : float :=
  Math_max0 (adjustedGrossIncome - deductionApplied).

End Lines.

(** The chain of comparisons that sets [estimatedTax], as a function of
    the taxable income.  A NaN fails every comparison and reaches the last
    branch. *)
#[warnings="-inexact-float"]
Definition estimatedTax (taxableIncome : float) : float :=
  if taxableIncome <=? 10275 then
    taxableIncome * 0.10
  else if taxableIncome <=? 41775 then
    1027.50 + (taxableIncome - 10275) * 0.12
  else if taxableIncome <=? 89075 then
    4807.50 + (taxableIncome - 41775) * 0.22
  else if taxableIncome <=? 170050 then
    15213.50 + (taxableIncome - 89075) * 0.24
  else if taxableIncome <=? 215950 then
    34647.50 + (taxableIncome - 170050) * 0.32
  else if taxableIncome <=? 539900 then
    49335.50 + (taxableIncome - 215950) * 0.35
  else
    162718 + (taxableIncome - 539900) * 0.37.

(** The exact value of a binary64 number: a finite number is [v * 2^e] for
    integers [v] and [e].  [None] for the infinities and NaN. *)
Definition to_Q (x : float) : option Q :=
  match FloatOps.Prim2SF x with
  | SpecFloat.S754_zero _ => Some 0%Q
  | SpecFloat.S754_finite s m e =>
      Some (inject_Z (if s then Z.neg m else Z.pos m) * Qpower 2 e)%Q
  | SpecFloat.S754_infinity _ | SpecFloat.S754_nan => None
  end.

(** [Math.round(x)] as an integer: the floor of [x + 1/2], computed
    exactly.  [None] for the infinities and NaN, which [Math.round] returns
    as they are. *)
Definition Math_round (x : float) : option Z :=
  Form1040.Math_round <$> to_Q x.

(** Amount of the item labelled [15. Tax]. *)
Definition tax (data : Form1040Data) : option Z :=
  Math_round (estimatedTax (taxableIncome data)).

(** How a number compares with 0: it is [0] or [-0], or it is NaN, or it
    is greater than 0, or it is less. *)
Inductive Sign (x : float) : Prop :=
| sign_zero :
    (x =? 0) = true -> is_nan x = false -> (0 <? x) = false ->
    (x <? 0) = false -> (x <=? 0) = true -> Sign x
| sign_nan :
    is_nan x = true -> (x =? 0) = false -> (0 <? x) = false ->
    (x <? 0) = false -> (x <=? 0) = false -> Sign x
| sign_pos :
    (0 <? x) = true -> (x =? 0) = false -> is_nan x = false ->
    (x <? 0) = false -> (x <=? 0) = false -> Sign x
| sign_neg :
    (x <? 0) = true -> (x =? 0) = false -> is_nan x = false ->
    (0 <? x) = false -> (x <=? 0) = true -> Sign x.

(** *** The computation as the specification words it *)

(** The rate of the first bracket and its upper threshold; then the upper
    threshold and the rate of each further bracket but the last; then the
    rate above the last threshold. *)
#[warnings="-inexact-float"]
Definition first_rate : float := 0.10.
Definition first_threshold : float := 10275.
#[warnings="-inexact-float"]
Definition brackets : list (float * float) :=
  [ (41775, 0.12); (89075, 0.22); (170050, 0.24); (215950, 0.32);
    (539900, 0.35) ].
#[warnings="-inexact-float"]
Definition top_rate : float := 0.37.

(** The tax of an income above [lo], where [base] is the tax of [lo]:
    the cumulative amount plus the part of the income above [lo] at the
    rate of the bracket the income lies in. *)
Fixpoint cumulative (lo base : float) (bs : list (float * float))
    (income : float) : float :=
  match bs with
  | [] => base + (income - lo) * top_rate
  | (hi, rate) :: rest =>
      if income <=? hi then base + (income - lo) * rate
      else cumulative hi (base + (hi - lo) * rate) rest income
  end.

Definition bracket_tax (income : float) : float :=
  if income <=? first_threshold then income * first_rate
  else cumulative first_threshold (first_threshold * first_rate) brackets income.

(** The same schedule with exact rationals, at the exact value of a
    binary64 income, rounded to the nearest integer. *)
Definition exact_tax (income : float) : option Z :=
  (fun q => Form1040.Math_round (Form1040.bracket_tax q)) <$> to_Q income.

(** The standard deduction table, keyed by filing status. *)
Definition deduction_table : list (string * float) :=
  [ ("single", 12950); ("married_separate", 12950);
    ("head_of_household", 19400); ("married_joint", 25900);
    ("qualifying_widow", 25900) ].

Fixpoint table_lookup (key : string) (table : list (string * float))
  : option float :=
  match table with
  | [] => None
  | (k, v) :: rest => if String.eqb key k then Some v else table_lookup key rest
  end.

(** *** Concrete records *)

Definition sample (status : string) (wages : float)
    (adjustments deductions : option float) : Form1040Data :=
  mkData "Ada" "Byron" "123456789" status "1 Main St" "Springfield" "IL" "62701"
         wages 1200 850 3000 None adjustments deductions.

(** The amount of [n] cents, for [n] from 0 to [2^62], as a JSON number
    with two decimals is read: the binary64 number nearest to [n / 100]. *)
Definition cents (n : Z) : float := of_uint63 (Uint63.of_Z n) / 100.

(** The record of a single filer whose amounts are given in cents: as the
    code receives it, and with the same amounts as exact rationals. *)
Definition in_cents (wages interest dividends capitalGains : Z)
    (deductions : option Z) : Form1040Data :=
  mkData "Ada" "Byron" "123456789" "single" "1 Main St" "Springfield" "IL" "62701"
         (cents wages) (cents interest) (cents dividends) (cents capitalGains)
         None None (cents <$> deductions).

Definition in_cents_exact (wages interest dividends capitalGains : Z)
    (deductions : option Z) : Form1040.Form1040Data :=
  Form1040.mkData
    "Ada" "Byron" "123456789" "single" "1 Main St" "Springfield" "IL" "62701"
    (wages # 100) (interest # 100) (dividends # 100) (capitalGains # 100)
    None None ((fun n => n # 100)%Q <$> deductions).

(** Wages 12954.90, interest 0.05 and dividends 0.05 with deductions of
    12950.00: the sum of the amounts is not a binary64 number. *)
Definition record_cents : Form1040Data :=
  in_cents 1295490%Z 5%Z 5%Z 0%Z (Some 1295000%Z).
Definition record_cents_exact : Form1040.Form1040Data :=
  in_cents_exact 1295490%Z 5%Z 5%Z 0%Z (Some 1295000%Z).

(** Wages 71233.23, interest 3070.04, dividends 2376.00 and capital gains
    1895.73: the exact tax falls on a tie. *)
Definition record_drift : Form1040Data :=
  in_cents 7123323%Z 307004%Z 237600%Z 189573%Z None.
Definition record_drift_exact : Form1040.Form1040Data :=
  in_cents_exact 7123323%Z 307004%Z 237600%Z 189573%Z None.

(** A record whose taxable income is the binary64 number just below 25. *)
#[warnings="-inexact-float"]
Definition record_tie : Form1040Data :=
  mkData "Ada" "Byron" "123456789" "single" "1 Main St" "Springfield" "IL" "62701"
         25.999999999999996 0 0 0 None None (Some 1).

End Binary64.

(** ** Vocabulary of the specification and auxiliary notions *)

Definition vocabulary : list string :=
  [ "firstName"; "lastName"; "ssn"; "filingStatus";
    "address"; "city"; "state"; "zip";
    "wages"; "interest"; "dividends"; "capitalGains";
    "otherIncome"; "adjustments"; "deductions" ].

Definition numericFields : list string :=
  [ "wages"; "interest"; "dividends"; "capitalGains";
    "otherIncome"; "adjustments"; "deductions" ].

(** The entries the merge loop visits for one document: those of its
    analysis when the guard lets the document through, none otherwise. *)
Definition contribution (doc : ProcessedDoc) : list (string * JsVal) :=
  if mergeable doc then default [] (Object_entries (analysis doc)) else [].

(** The values the entries give for one key, in the order of the entries. *)
Definition values_for (key : string) (entries : list (string * JsVal))
  : list JsVal :=
  snd <$> filter (fun kv => kv.1 = key) entries.

(** All the values the batch offers for one key, document after document. *)
Definition offered (key : string) (docs : list ProcessedDoc) : list JsVal :=
  values_for key (docs ≫= contribution).

(** What one visited value does to the current value of its key. *)
Definition step (cur v : JsVal) : JsVal :=
  if negb (is_null v) && (negb (truthy cur) || is_null cur) then v else cur.

(** The first value of a list that is not [null]. *)
Definition first_non_null (vs : list JsVal) : option JsVal :=
  head (filter (fun v => is_null v = false) vs).

(** The first truthy value of a list. *)
Definition first_truthy (vs : list JsVal) : option JsVal :=
  head (filter (fun v => truthy v = true) vs).

(** A document supplies a key when the merge loop meets a value other than
    [null] for it. *)
Definition supplies (key : string) (doc : ProcessedDoc) : bool :=
  existsb (fun kv => String.eqb kv.1 key && negb (is_null kv.2))
          (contribution doc).

(** The own property [key] of a merged record holds the number 0. *)
Definition holds_zero (fd : gmap string JsVal) (key : string) : Prop :=
  exists q, fd !! key = Some (JNum q) /\ (q == 0)%Q.

(** The value a field of the vocabulary is expected to have, [null] apart:
    a number for the numeric fields, a string for the others. *)
Definition expected_type (key : string) (v : JsVal) : bool :=
  if bool_decide (key ∈ numericFields)
  then match v with JNum _ => true | _ => false end
  else match v with JStr _ => true | _ => false end.

(** A field set that keeps only vocabulary fields, each of its expected
    type or [null]. *)
Definition sanitized (v : JsVal) : Prop :=
  forall entries, Object_entries v = Some entries ->
  forall key value, (key, value) ∈ entries ->
    key ∈ vocabulary /\ (is_null value || expected_type key value) = true.

(** A processed document that carries an error marker and no parsed field:
    the marker sits on the document itself, or is the only property of its
    analysis. *)
Definition error_marked (doc : ProcessedDoc) : bool :=
  truthy (error doc)
  || match analysis doc with
     | JObj [(key, _)] => String.eqb key "error"
     | _ => false
     end.

(** The claim that reconciliation defaults the numeric fields: every
    numeric field no document of the batch supplies holds 0 in the merged
    record. *)
Definition defaults_numeric_fields (docs : list ProcessedDoc) : Prop :=
  forall r, reconcile docs = Some r ->
  forall key, key ∈ numericFields ->
    Forall (fun doc => supplies key doc = false) docs ->
    holds_zero (formData r) key.

(** An analysis object from its properties. *)
Definition analysed (props : list (string * JsVal)) : ProcessedDoc :=
  mkDoc (JObj props) JUndefined JUndefined.

(** *** Concrete batches and replies *)

Definition doc_zero_wages : ProcessedDoc :=
  analysed [("firstName", JStr "Ada"); ("wages", JNum 0)].
Definition doc_wages_50000 : ProcessedDoc :=
  analysed [("firstName", JStr "Grace"); ("wages", JNum 50000)].
Definition doc_wages_75000 : ProcessedDoc :=
  analysed [("wages", JNum 75000); ("ssn", JStr "123456789");
            ("firstName", JStr "John"); ("interest", JNull)].
Definition doc_interest_1200 : ProcessedDoc :=
  analysed [("wages", JNull); ("interest", JNum 1200); ("otherIncome", JNull)].

Definition doc_complete_zero_interest : ProcessedDoc :=
  analysed [("firstName", JStr "Ada"); ("lastName", JStr "Byron");
            ("ssn", JStr "123456789"); ("filingStatus", JStr "single");
            ("address", JStr "1 Main St"); ("city", JStr "Springfield");
            ("state", JStr "IL"); ("zip", JStr "62701");
            ("wages", JNum 75000); ("interest", JNum 0);
            ("dividends", JNum 850); ("capitalGains", JNum 3000)].

Definition doc_name_only : ProcessedDoc :=
  analysed [("firstName", JStr "John"); ("wages", JNull)].

Definition reply_prose : string :=
  "I am sorry, I cannot read this document.".

Definition reply_wages : string :=
  "Here is the data: { " ++ Json.quoted "wages" ++ ": 75000, "
  ++ Json.quoted "firstName" ++ ": " ++ Json.quoted "John" ++ " }".

Definition reply_extra_field : string :=
  "```json" ++ String Str.LF
    ("{ " ++ Json.quoted "employer" ++ ": " ++ Json.quoted "ACME" ++ ", "
     ++ Json.quoted "wages" ++ ": " ++ Json.quoted "75,000" ++ " }"
     ++ String Str.LF "```").

Definition stored (_ : JsVal) : bool := true.

(** The match of [jsonMatch] on [reply_extra_field]. *)
Definition match_extra_field : RegExpMatch :=
  Eval vm_compute in default (mkMatch EmptyString None) (jsonMatch reply_extra_field).

(** ** Further parts of [generate1040Form] *)

Module Pdf.

(** [s.slice(-n)]: the last [n] characters, the whole string when it is
    shorter. *)
Definition slice_last (n : nat) (s : string) : string :=
  String.substring (String.length s - n) n s.

(** The text after [Social Security Number: ] on the form. *)
Definition masked_ssn (ssn : string) : string :=
  "XXX-XX-" ++ slice_last 4 ssn.


End Pdf.

(** ** The client's own form: [generateTaxFormPDF] of the analysis page *)

Module Client.

Local Open Scope Q_scope.

(** [interface TaxFormData]: every amount is a number. *)
Record TaxFormData : Type := mkForm {
  firstName : string;
  lastName : string;
  ssn : string;
  filingStatus : string;
  address : string;
  city : string;
  state : string;
  zip : string;
  wages : Q;
  interest : Q;
  dividends : Q;
  capitalGains : Q;
  otherIncome : Q;
  adjustments : Q;
  deductions : Q
}.

(** [x || d] for a number [x]. *)
Definition or_else (x d : Q) : Q := if Qeq_bool x 0 then d else x.

(** The [value]s of [incomeItems]. *)
Definition incomeItems (formData : TaxFormData) : list Q :=
  [ wages formData; or_else (interest formData) 0;
    or_else (dividends formData) 0; or_else (capitalGains formData) 0;
    or_else (otherIncome formData) 0 ].

(** [incomeItems.reduce((sum, item) => sum + item.value, 0)] *)
Definition totalIncome (formData : TaxFormData) : Q :=
  fold_left Qplus (incomeItems formData) 0.

Definition agi (formData : TaxFormData) : Q :=
  totalIncome formData - or_else (adjustments formData) 0.

Definition deduction (formData : TaxFormData) : Q :=
  or_else (deductions formData) 12950.

Definition taxableIncome (formData : TaxFormData) : Q :=
  Qmax 0 (agi formData - deduction formData).


(** [handleDocumentSelect]: the new value of [selectedDocuments]. *)
Definition handleDocumentSelect (documentId : string) (prev : list string)
  : list string :=
  if bool_decide (documentId ∈ prev)
  then filter (fun id => id <> documentId) prev
  else prev ++ [documentId].

(** A record of the client for the examples. *)
Definition sample (status : string) (wages deductions : Q) : TaxFormData :=
  mkForm "John" "Doe" "123456789" status "123 Main St" "Anytown" "CA" "12345"
         wages 1200 850 3000 0 0 deductions.

End Client.

(** ** Validation of the [/api/generate-1040] endpoint of the server *)

Module Server.

Definition requiredFields : list string :=
  [ "firstName"; "lastName"; "ssn"; "filingStatus" ].

(** [requiredFields.filter(field => !formData[field])] *)
Definition missingFields (formData : gmap string JsVal) : list string :=
  filter (fun field => truthy (get formData field) = false) requiredFields.

(** What the endpoint does with the request body: status 400 with the
    missing fields, or the call of [generate1040Form] on the body. *)
Inductive Outcome : Type :=
| BadRequest (missing : list string)
| Generate (formData : gmap string JsVal).

Definition generate_1040 (formData : gmap string JsVal) : Outcome :=
  if bool_decide (0 < length (missingFields formData))%nat
  then BadRequest (missingFields formData)
  else Generate formData.

End Server.

(** ** The merge loop seen from one own property *)

(** Whether reading a key whose own property is [cur] gives a truthy value. *)
Definition settled (key : string) (cur : option JsVal) : bool :=
  truthy (match cur with
          | Some v => v
          | None => if inherited key then JBuiltin else JUndefined
          end).

(** What one visited value does to the own property of its key. *)
Definition own_step (key : string) (cur : option JsVal) (v : JsVal)
  : option JsVal :=
  if negb (is_null v) && negb (settled key cur) then Some v else cur.

(** The value the merge loop leaves for a key the record does not inherit:
    the first truthy value offered, failing that the last one that is not
    [null], failing that nothing. *)
Definition merged_value (vs : list JsVal) : option JsVal :=
  match first_truthy vs with
  | Some v => Some v
  | None => last (filter (fun v => is_null v = false) vs)
  end.

Definition doc_constructor : ProcessedDoc :=
  analysed [("constructor", JStr "ACME"); ("wages", JNum 75000)].

(** ** Selection of the requested documents

    The prelude shared by [/extract-first-letters] and [/extract-tax-info]:
    the check of [documentIds], the query for the user's documents and the
    comparison of the two lengths. *)

Module Registry.

(** A stored document, as far as the routes read it.  [_id] is the
    [ObjectId] in its canonical form. *)
Record StoredDocument : Type := mkStored {
  _id : string;
  userId : string;
  filename : string;
  fileType : string;
  location : option string;
  stored_analysis : JsVal
}.

(** [Document.find({ _id: { $in: ids }, userId })] over the collection, the
    documents in the order the collection returns them. *)
Definition Document_find (db : list StoredDocument) (ids : list string)
    (user : string) : list StoredDocument :=
  filter (fun doc => _id doc ∈ ids /\ userId doc = user) db.

Inductive Selection : Type :=
| IdsRequired                         (* 400: Valid document IDs array is required *)
| InvalidId (id : JsVal)              (* 400: Invalid document ID format *)
| CastFailed                          (* the query throws: 500 *)
| AccessDenied                        (* 403 *)
| Selected (documents : list StoredDocument).

Section Routes.

(** [isValidObjectId] of mongoose, and the cast of a requested id to an
    [ObjectId] the query performs ([None] when the cast throws). *)
Variable isValidObjectId : JsVal -> bool.
Variable castObjectId : JsVal -> option string.

Definition select_documents (db : list StoredDocument) (user : string)
    (documentIds : JsVal) : Selection :=
  match documentIds with
  | JArr ((_ :: _) as ids) =>
      match List.find (fun id => negb (isValidObjectId id)) ids with
      | Some id => InvalidId id
      | None =>
          match mapM castObjectId ids with
          | None => CastFailed
          | Some oids =>
              let documents := Document_find db oids user in
              if bool_decide (length documents <> length ids)
              then AccessDenied
              else Selected documents
          end
      end
  | _ => IdsRequired
  end.

(** [doc.filename.charAt(0)] *)
Definition firstLetter (doc : StoredDocument) : string :=
  String.substring 0 1 (filename doc).

(** [firstLettersResults.map(result => result.firstLetter).join('')] *)
Definition firstLetters (documents : list StoredDocument) : string :=
  fold_right String.append EmptyString (firstLetter <$> documents).

(** [Document.updateMany] on the requested ids: [false] when it throws. *)
Variable updateMany : JsVal -> bool.

(** The answer of [/extract-first-letters]: the selection's refusal, or the
    joined first letters; [None] is the status 500 of the [catch]. *)
Definition extract_first_letters (db : list StoredDocument) (user : string)
    (documentIds : JsVal) : Selection + option string :=
  match select_documents db user documentIds with
  | Selected documents =>
      inr (if updateMany documentIds then Some (firstLetters documents)
           else None)
  | refusal => inl refusal
  end.

End Routes.

(** A cast for the examples: the strings of 24 characters, as they are. *)
Definition cast24 (id : JsVal) : option string :=
  match id with
  | JStr s => if (String.length s =? 24)%nat then Some s else None
  | _ => None
  end.

Definition valid24 (id : JsVal) : bool := bool_decide (is_Some (cast24 id)).

Definition id_a : string := "64b000000000000000000a01".
Definition id_b : string := "64b000000000000000000b02".
Definition id_c : string := "64b000000000000000000c03".

Definition db3 : list StoredDocument :=
  [ mkStored id_a "auth0|ada" "w2.pdf" "application/pdf" (Some "users/ada/w2.pdf") JUndefined;
    mkStored id_b "auth0|ada" "1099.pdf" "application/pdf" (Some "users/ada/1099.pdf") JUndefined;
    mkStored id_c "auth0|bob" "w2.png" "image/png" (Some "users/bob/w2.png") JUndefined ].

End Registry.

Definition doc_complete : ProcessedDoc :=
  analysed [("firstName", JStr "Ada"); ("lastName", JStr "Byron");
            ("ssn", JStr "123456789"); ("filingStatus", JStr "single");
            ("address", JStr "1 Main St"); ("city", JStr "Springfield");
            ("state", JStr "IL"); ("zip", JStr "62701");
            ("wages", JNum 75000); ("interest", JNum 1200);
            ("dividends", JNum 850); ("capitalGains", JNum 3000)].

(** The same document with a last name that is one space. *)
Definition doc_blank_last_name : ProcessedDoc :=
  analysed [("firstName", JStr "Ada"); ("lastName", JStr " ");
            ("ssn", JStr "123456789"); ("filingStatus", JStr "single");
            ("address", JStr "1 Main St"); ("city", JStr "Springfield");
            ("state", JStr "IL"); ("zip", JStr "62701");
            ("wages", JNum 75000); ("interest", JNum 1200);
            ("dividends", JNum 850); ("capitalGains", JNum 3000)].

(** ** [analyzeDocuments] of the document analysis service *)

Module Analysis.

(** What happened to one document before its reply could be read. *)
Inductive Fetch : Type :=
| NoLocation (id : string)            (* [doc.location] is missing *)
| StorageFailed (message : option string)
                                      (* the download or the model threw *)
| Answered (analysisText : string).

(** The object [{ ...target, ...source }]. *)
Definition spread (target : gmap string JsVal) (source : JsVal)
  : gmap string JsVal :=
  fold_left (fun obj kv => <[kv.1 := kv.2]> obj)
            (default [] (Object_entries source)) target.

Definition requiredGroups : list string :=
  [ "personalInfo"; "address"; "income" ].

(** [interface AnalysisResult] *)
Record AnalysisResult : Type := mkResult {
  documents : list ProcessedDoc;
  extractedData : gmap string JsVal;
  missingFields : list string
}.

(** The [reduce] over [processedDocs]. *)
Definition combine (processedDocs : list ProcessedDoc) : gmap string JsVal :=
  fold_left
    (fun combined doc =>
       if truthy (analysis doc) then spread combined (analysis doc)
       else combined)
    processedDocs ∅.

(** The three [if (!combinedData.x) missingFields.push(x)]. *)
Definition identify_missing (combinedData : gmap string JsVal) : list string :=
  (if truthy (get combinedData "personalInfo") then [] else ["personalInfo"])
  ++ (if truthy (get combinedData "address") then [] else ["address"])
  ++ (if truthy (get combinedData "income") then [] else ["income"]).

Section Service.

Variable JSON_parse : string -> option JsVal.
Variable findOneAndUpdate : JsVal -> bool.

(** The document the [catch (jsonError)] of this service returns: the error
    and an analysis holding the raw reply. *)
Definition unparsed (analysisText : string) : ProcessedDoc :=
  mkDoc (JObj [("rawText", JStr analysisText)])
        (JStr parse_failed_message) JUndefined.

Definition analyse_reply (analysisText : string) : ProcessedDoc :=
  let analysisData :=
    match jsonMatch analysisText with
    | Some m => JSON_parse (Str.trim (jsonStr_of m))
    | None =>
        Some (JObj [("formType", JStr "Unknown");
                    ("extractedData", JObj [("rawText", JStr analysisText)])])
    end in
  match analysisData with
  | Some data =>
      if findOneAndUpdate data
      then mkDoc data JUndefined JUndefined
      else unparsed analysisText
  | None => unparsed analysisText
  end.

(** The callback of [documents.map]. *)
Definition analyse_doc (fetch : Fetch) : ProcessedDoc :=
  match fetch with
  | NoLocation id =>
      mkDoc JUndefined
            (JStr ("Processing error: Document " ++ id ++ " has no location"))
            JUndefined
  | StorageFailed message =>
      mkDoc JUndefined
            (JStr ("Failed to retrieve document from storage: "
                   ++ default "Unknown error" message))
            JUndefined
  | Answered analysisText => analyse_reply analysisText
  end.

(** [analyzeDocuments] once the documents were fetched: [fetched] has one
    element per document the query returned. *)
Definition analyzeDocuments (fetched : list Fetch) : AnalysisResult :=
  match fetched with
  | [] => mkResult [] ∅ ["personalInfo"; "address"; "income"]
  | _ :: _ =>
      let processedDocs := analyse_doc <$> fetched in
      let combinedData := combine processedDocs in
      mkResult processedDocs combinedData (identify_missing combinedData)
  end.

End Service.

(** The entries a processed document spreads into the combined data. *)
Definition spread_entries (doc : ProcessedDoc) : list (string * JsVal) :=
  if truthy (analysis doc) then default [] (Object_entries (analysis doc))
  else [].

Definition reply_income_null : string :=
  "{ " ++ Json.quoted "income" ++ ": null }".

Definition reply_income : string :=
  "{ " ++ Json.quoted "income" ++ ": { " ++ Json.quoted "wages"
  ++ ": 75000 } }".

Definition reply_broken : string := "{ wages: 75000 }".

End Analysis.

(** ** [sanitizeString] and [sanitizeInput] of the security middleware *)

Module Sanitize.

(** Lower case of an ASCII letter; other characters as they are.  Under the
    flag [i] an ASCII letter of a pattern matches its two cases only. *)
Definition lower (c : ascii) : ascii :=
  let n := nat_of_ascii c in
  if ((65 <=? n)%nat && (n <=? 90)%nat) then ascii_of_nat (n + 32) else c.

(** The class [\w]: letters, digits and the underscore. *)
Definition is_word (c : ascii) : bool :=
  let n := nat_of_ascii c in
  ((48 <=? n)%nat && (n <=? 57)%nat) || ((65 <=? n)%nat && (n <=? 90)%nat)
  || ((97 <=? n)%nat && (n <=? 122)%nat) || (n =? 95)%nat.

(** The class [[<>]]. *)
Definition is_angle (c : ascii) : bool :=
  Ascii.eqb c "<" || Ascii.eqb c ">".

(** [s.replace(/[...]/g, '')] for a class of characters. *)
Fixpoint remove_chars (class : ascii -> bool) (s : string) : string :=
  match s with
  | EmptyString => EmptyString
  | String c rest =>
      if class c then remove_chars class rest
      else String c (remove_chars class rest)
  end.

(** [s.replace(/pattern/g, '')] for a pattern given by [match_at], the
    length of its match at the head of a string ([None] when it does not
    match there; it never matches the empty string): the matches are
    looked for from left to right, each search starting where the previous
    match ended.  [skip] counts the characters of a match still to drop. *)
Fixpoint remove_matches (match_at : string -> option nat) (skip : nat)
    (s : string) : string :=
  match s with
  | EmptyString => EmptyString
  | String c rest =>
      match skip with
      | S n => remove_matches match_at n rest
      | O =>
          match match_at s with
          | Some (S n) => remove_matches match_at n rest
          | _ => String c (remove_matches match_at 0 rest)
          end
      end
  end.

(** Whether [s] starts with the lower-case word [word], case ignored. *)
Fixpoint starts_with_ci (word s : string) : bool :=
  match word with
  | EmptyString => true
  | String w word' =>
      match s with
      | String c rest => Ascii.eqb (lower c) w && starts_with_ci word' rest
      | EmptyString => false
      end
  end.

(** [/javascript:/gi] at the head of [s]. *)
Definition match_javascript (s : string) : option nat :=
  if starts_with_ci "javascript:" s then Some 11%nat else None.

(** The length of the longest run of word characters at the head of [s],
    when the run is not empty and an equals sign follows it. *)
Fixpoint word_run_then_equals (s : string) : option nat :=
  match s with
  | EmptyString => None
  | String c rest =>
      if is_word c then
        match rest with
        | String d _ =>
            if Ascii.eqb d "=" then Some 1%nat
            else S <$> word_run_then_equals rest
        | EmptyString => None
        end
      else None
  end.

(** [/on\w+=/gi] at the head of [s]: the word characters are taken
    greedily, and no shorter run can be followed by the equals sign. *)
Definition match_on_handler (s : string) : option nat :=
  match s with
  | String a rest =>
      if Ascii.eqb (lower a) "o" then
        match rest with
        | String b rest' =>
            if Ascii.eqb (lower b) "n"
            then (fun n => 3 + n)%nat <$> word_run_then_equals rest'
            else None
        | EmptyString => None
        end
      else None
  | EmptyString => None
  end.

Definition sanitizeString (str : string) : string :=
  Str.trim
    (remove_matches match_on_handler 0
       (remove_matches match_javascript 0
          (remove_chars is_angle str))).

(** The body of the loops of [sanitizeInput]: a string is sanitized, any
    other value is left as it is. *)
Definition sanitize_field (v : JsVal) : JsVal :=
  match v with
  | JStr s => JStr (sanitizeString s)
  | _ => v
  end.

(** [sanitizeInput] on the parsed body, an object. *)
Definition sanitizeInput (body : gmap string JsVal) : gmap string JsVal :=
  sanitize_field <$> body.

(** [/api/generate-1040] behind the middleware. *)
Definition api_generate_1040 (body : gmap string JsVal) : Server.Outcome :=
  Server.generate_1040 (sanitizeInput body).

End Sanitize.

(** ** The chat history of the [/chat] route of the Gemini routes *)

Module Chat.

(** One element of a user's history: [{ role, parts: [{ text }] }]. *)
Record Entry : Type := mkEntry {
  role : string;
  text : JsVal
}.

Inductive Response : Type :=
| Unauthorized                 (* 401 *)
| MessageRequired              (* 400 *)
| Failed                       (* 500 *)
| Answer (response : string).

Section Handler.

(** What lies between the push of the user's message and the reply: the
    query for the analysed documents, [startChat] on the user's array
    itself and [sendMessage].  The result is that array as these calls
    leave it and the reply, [None] when one of them throws. *)
Variable converse : list Entry -> JsVal -> list Entry * option string.

(** [userChatHistory[userId].slice(-10)] when the array is longer than 10. *)
Definition limit (history : list Entry) : list Entry :=
  if (10 <? length history)%nat
  then drop (length history - 10) history
  else history.

(** The handler on the histories of all users.  [userId] is [req.auth?.sub].
    A user id that is a name every object inherits reads as a value without
    [push], which throws. *)
Definition chat (userChatHistory : gmap string (list Entry))
    (userId : option string) (message : JsVal)
  : Response * gmap string (list Entry) :=
  match userId with
  | None => (Unauthorized, userChatHistory)
  | Some user =>
      if String.eqb user EmptyString then (Unauthorized, userChatHistory)
      else if negb (truthy message) then (MessageRequired, userChatHistory)
      else
        match userChatHistory !! user with
        | None =>
            if inherited user then (Failed, userChatHistory)
            else
              let '(history, reply) :=
                converse ([] ++ [mkEntry "user" message]) message in
              match reply with
              | None => (Failed, <[user := history]> userChatHistory)
              | Some aiMessage =>
                  (Answer aiMessage,
                   <[user := limit (history ++ [mkEntry "assistant" (JStr aiMessage)])]>
                     userChatHistory)
              end
        | Some previous =>
            let '(history, reply) :=
              converse (previous ++ [mkEntry "user" message]) message in
            match reply with
            | None => (Failed, <[user := history]> userChatHistory)
            | Some aiMessage =>
                (Answer aiMessage,
                 <[user := limit (history ++ [mkEntry "assistant" (JStr aiMessage)])]>
                   userChatHistory)
            end
        end
  end.

(** A sequence of requests, one after the other. *)
Fixpoint serve (userChatHistory : gmap string (list Entry))
    (requests : list (option string * JsVal))
  : list Response * gmap string (list Entry) :=
  match requests with
  | [] => ([], userChatHistory)
  | (userId, message) :: rest =>
      let '(response, store) := chat userChatHistory userId message in
      let '(responses, final) := serve store rest in
      (response :: responses, final)
  end.

End Handler.

(** A model that always throws and leaves the history as it is, and one that
    always answers. *)
Definition always_throws (history : list Entry) (_ : JsVal)
  : list Entry * option string := (history, None).
Definition always_answers (history : list Entry) (_ : JsVal)
  : list Entry * option string := (history, Some "It depends.").

End Chat.

(** ** The [/complete-tax-form] route *)

Module CompleteForm.

Inductive Completion : Type :=
| CurrentRequired                       (* 400 *)
| Failed                                (* 500 *)
| Enhanced (enhancedData : JsVal)       (* the model's reply, parsed *)
| Kept (updatedFormData : gmap string JsVal).
                                        (* the merged data, the reply unused *)

(** [obj[key] = value] on a plain object: the own property is written,
    except for [__proto__], which without an own property of that name is
    the inherited accessor and leaves the own properties as they are. *)
Definition assign (obj : gmap string JsVal) (key : string) (value : JsVal)
  : gmap string JsVal :=
  if bool_decide (key = "__proto__" /\ obj !! key = None) then obj
  else <[key := value]> obj.

Section Route.

(** [parseFloat]: [None] is [NaN]. *)
Variable parseFloat : JsVal -> option Q.
Variable JSON_parse : string -> option JsVal.

(** The value written for one entry of [additionalInfo]:
    [parseFloat(value) || 0] for the numeric fields, the value itself for
    the others. *)
Definition coerce (key : string) (value : JsVal) : JsVal :=
  if bool_decide (key ∈ numericFields)
  then JNum (match parseFloat value with
             | Some q => if Qeq_bool q 0 then 0 else q
             | None => 0
             end)
  else value.

(** [updatedFormData] after the loop over [Object.entries(additionalInfo)];
    [None] when [Object.entries] throws. *)
Definition merge_additional (currentFormData additionalInfo : JsVal)
  : option (gmap string JsVal) :=
  entries ← Object_entries additionalInfo;
  Some (fold_left (fun obj kv => assign obj kv.1 (coerce kv.1 kv.2)) entries
          (Analysis.spread ∅ currentFormData)).

(** The route; [reply] is the text of the model, [None] when the call
    throws. *)
Definition complete_tax_form (currentFormData additionalInfo : JsVal)
    (reply : option string) : Completion :=
  if negb (truthy currentFormData) then CurrentRequired
  else
    match merge_additional currentFormData additionalInfo with
    | None => Failed
    | Some updatedFormData =>
        match reply with
        | None => Failed
        | Some enhancedText =>
            match jsonMatch enhancedText with
            | Some m =>
                match JSON_parse (Str.trim (jsonStr_of m)) with
                | Some enhancedData => Enhanced enhancedData
                | None => Kept updatedFormData
                end
            | None => Kept updatedFormData
            end
        end
    end.

End Route.

(** A [parseFloat] for the examples: numbers as they are, and of a string
    the number JSON would read at its head. *)
Definition parseFloat_json (v : JsVal) : option Q :=
  match v with
  | JNum q => Some q
  | JStr s => fst <$> Json.read_number (String.list_ascii_of_string s)
  | _ => None
  end.

Definition current_form : JsVal :=
  JObj [("firstName", JStr "Ada"); ("wages", JNum 75000); ("interest", JNull)].
Definition additional_info : JsVal :=
  JObj [("interest", JStr "1200.50"); ("dividends", JStr EmptyString);
        ("lastName", JStr "Byron")].

End CompleteForm.

(** The clicks on the documents of the analysis page, from an empty
    selection. *)
Definition selection_after (clicks : list string) : list string :=
  fold_left (fun selected id => Client.handleDocumentSelect id selected) clicks [].

(** * Properties of the reconciler *)

Section Reconciler.

Implicit Types (fd : gmap string JsVal) (k key : string) (v cur : JsVal).
Implicit Types (es : list (string * JsVal)) (vs : list JsVal).
Implicit Types (doc : ProcessedDoc) (docs : list ProcessedDoc).

Lemma null_is_falsy v : is_null v = true -> truthy v = false.
Proof. by destruct v. Qed.

Lemma not_set_falsy fd k : not_set fd k = negb (truthy (get fd k)).
Proof.
  unfold not_set. destruct (is_null (get fd k)) eqn:Hn.
  - by rewrite (null_is_falsy _ Hn).
  - by rewrite orb_false_r.
Qed.

(** The guard of the merge loop keeps [Object.entries] from throwing. *)
Lemma truthy_has_entries v : truthy v = true -> is_Some (Object_entries v).
Proof. destruct v; simpl; intros H; try discriminate; eauto. Qed.

Lemma merge_doc_contribution fd doc :
  merge_doc fd doc = Some (fold_left merge_entry (contribution doc) fd).
Proof.
  unfold merge_doc, contribution.
  destruct (mergeable doc) eqn:Hm; [|done].
  apply andb_prop in Hm as [Ha _].
  destruct (truthy_has_entries _ Ha) as [es ->]. done.
Qed.

Lemma merge_docs_contribution docs fd :
  merge_docs docs fd = Some (fold_left merge_entry (docs ≫= contribution) fd).
Proof.
  revert fd. induction docs as [|doc docs IH]; intros fd; [done|].
  simpl. rewrite merge_doc_contribution. simpl.
  rewrite IH. by rewrite fold_left_app.
Qed.

(** The merge loop never throws: the handler always answers. *)
Lemma reconcile_answers docs :
  reconcile docs =
    Some (mkReconciled (fold_left merge_entry (docs ≫= contribution) ∅)
            (check_missing (fold_left merge_entry (docs ≫= contribution) ∅))
            docs).
Proof. unfold reconcile. by rewrite merge_docs_contribution. Qed.

(** *** One key at a time *)

Lemma step_truthy cur v : truthy cur = true -> step cur v = cur.
Proof.
  intros Ht. unfold step. rewrite Ht. simpl.
  destruct (is_null cur) eqn:Hn.
  - by rewrite (null_is_falsy _ Hn) in Ht.
  - by rewrite andb_false_r.
Qed.

Lemma step_falsy cur v :
  truthy cur = false -> step cur v = if is_null v then cur else v.
Proof. intros Hf. unfold step. rewrite Hf. by destruct (is_null v). Qed.

Lemma get_merge_entry fd k' v k :
  get (merge_entry fd (k', v)) k =
    if decide (k' = k) then step (get fd k) v else get fd k.
Proof.
  unfold merge_entry, step, not_set.
  destruct (decide (k' = k)) as [->|Hne].
  - destruct (negb (is_null v) && _); [|done].
    unfold get at 1. by rewrite lookup_insert_eq.
  - destruct (negb (is_null v) && _); [|done].
    unfold get. by rewrite lookup_insert_ne.
Qed.

Lemma values_for_cons k k' v es :
  values_for k ((k', v) :: es) =
    if decide (k' = k) then v :: values_for k es else values_for k es.
Proof.
  unfold values_for. rewrite filter_cons. simpl.
  by destruct (decide (k' = k)).
Qed.

Lemma values_for_app k es1 es2 :
  values_for k (es1 ++ es2) = values_for k es1 ++ values_for k es2.
Proof. unfold values_for. by rewrite filter_app, fmap_app. Qed.

Lemma elem_of_values_for k v es : v ∈ values_for k es <-> (k, v) ∈ es.
Proof.
  unfold values_for. rewrite list_elem_of_fmap. split.
  - intros [[k' v'] [-> [Hk Hin]%list_elem_of_filter]]. simpl in *. by subst.
  - intros Hin. exists (k, v). split; [done|]. by apply list_elem_of_filter.
Qed.

Lemma get_merge_entries es fd k :
  get (fold_left merge_entry es fd) k =
    fold_left step (values_for k es) (get fd k).
Proof.
  revert fd. induction es as [|[k' v] es IH]; intros fd; [done|].
  cbn [fold_left]. rewrite IH, get_merge_entry, values_for_cons.
  by destruct (decide (k' = k)).
Qed.

Lemma fold_step_truthy vs cur :
  truthy cur = true -> fold_left step vs cur = cur.
Proof.
  revert cur. induction vs as [|v vs IH]; intros cur Ht; [done|].
  simpl. rewrite (step_truthy _ _ Ht). by apply IH.
Qed.

(** A falsy current value gives way to the first truthy value offered. *)
Lemma fold_step_first_truthy vs cur v :
  truthy cur = false -> first_truthy vs = Some v ->
  fold_left step vs cur = v.
Proof.
  unfold first_truthy. revert cur.
  induction vs as [|w vs IH]; intros cur Hf Hv; [done|].
  simpl. rewrite filter_cons in Hv.
  destruct (decide (truthy w = true)) as [Hw|Hw].
  - simpl in Hv. injection Hv as <-.
    rewrite (step_falsy _ _ Hf).
    destruct (is_null w) eqn:Hn; [by rewrite (null_is_falsy _ Hn) in Hw|].
    by apply fold_step_truthy.
  - apply IH; [|done]. rewrite (step_falsy _ _ Hf).
    destruct (is_null w); [done|]. by destruct (truthy w).
Qed.

(** Without a truthy value the last one that is not [null] stays. *)
Lemma fold_step_no_truthy vs cur :
  truthy cur = false -> first_truthy vs = None ->
  fold_left step vs cur =
    default cur (last (filter (fun v => is_null v = false) vs)).
Proof.
  unfold first_truthy. revert cur.
  induction vs as [|w vs IH]; intros cur Hf Hv; [done|].
  simpl. rewrite filter_cons in Hv.
  destruct (decide (truthy w = true)) as [Hw|Hw]; [done|].
  assert (truthy w = false) as Hw' by by destruct (truthy w).
  rewrite (step_falsy _ _ Hf), filter_cons.
  destruct (is_null w) eqn:Hn.
  - rewrite decide_False by done. by apply IH.
  - rewrite decide_True by done. rewrite (IH w Hw' Hv).
    rewrite last_cons. by destruct (last _).
Qed.

(** Values that are all [null] leave the own properties untouched. *)
Lemma lookup_merge_entries_null es fd k :
  (forall v, (k, v) ∈ es -> is_null v = true) ->
  fold_left merge_entry es fd !! k = fd !! k.
Proof.
  revert fd. induction es as [|[k' v] es IH]; intros fd Hnull; [done|].
  simpl. rewrite IH by (intros w Hw; apply Hnull; by right).
  unfold merge_entry. destruct (decide (k' = k)) as [->|Hne].
  - rewrite (Hnull v) by left. done.
  - destruct (negb (is_null v) && _); [|done]. by rewrite lookup_insert_ne.
Qed.

(** An inherited name never becomes an own property. *)
Lemma lookup_merge_entries_inherited es fd k :
  inherited k = true -> fd !! k = None ->
  fold_left merge_entry es fd !! k = None.
Proof.
  intros Hi. revert fd. induction es as [|[k' v] es IH]; intros fd Hfd; [done|].
  simpl. apply IH. unfold merge_entry, not_set.
  destruct (decide (k' = k)) as [->|Hne].
  - unfold get. rewrite Hfd, Hi. simpl. by rewrite andb_false_r.
  - destruct (negb (is_null v) && _); [|done]. by rewrite lookup_insert_ne.
Qed.

(** *** The missing-field check *)

Lemma check_missing_filter fd :
  check_missing fd = filter (fun field => not_set fd field = true) requiredFields.
Proof.
  unfold check_missing.
  enough (forall l acc,
    fold_left (fun missing field =>
                 if not_set fd field then missing ++ [field] else missing) l acc
    = acc ++ filter (fun field => not_set fd field = true) l) as H
    by apply (H requiredFields []).
  induction l as [|f l IH]; intros acc; simpl.
  - by rewrite app_nil_r.
  - rewrite IH, filter_cons. destruct (not_set fd f) eqn:E.
    + rewrite decide_True by done. by rewrite <- app_assoc.
    + by rewrite decide_False by done.
Qed.

Lemma elem_of_check_missing fd field :
  field ∈ check_missing fd <->
  field ∈ requiredFields /\ truthy (get fd field) = false.
Proof.
  rewrite check_missing_filter, list_elem_of_filter, not_set_falsy.
  destruct (truthy (get fd field)); simpl; intuition congruence.
Qed.

(** Merging more entries only ever turns unset keys into set ones. *)
Lemma not_set_merge_entries es fd k :
  not_set (fold_left merge_entry es fd) k = true -> not_set fd k = true.
Proof.
  rewrite !not_set_falsy, get_merge_entries.
  destruct (truthy (get fd k)) eqn:Ht; [|done].
  by rewrite (fold_step_truthy _ _ Ht), Ht.
Qed.

Lemma filter_sublist_mono {A} (P Q : A -> Prop)
    `{!forall x, Decision (P x)} `{!forall x, Decision (Q x)} (l : list A) :
  (forall x, P x -> Q x) -> filter P l `sublist_of` filter Q l.
Proof.
  intros HPQ. induction l as [|x l IH]; [done|].
  rewrite !filter_cons. destruct (decide (P x)) as [HP|HP].
  - rewrite decide_True by auto. by apply sublist_skip.
  - destruct (decide (Q x)); [by apply sublist_cons|done].
Qed.

End Reconciler.

(** * The claims about the reconciler *)

(** What the merge loop does, key by key: the first truthy value offered
    for a key becomes its value, whatever falsy values came before it. *)
Lemma merge_first_truthy_wins (docs : list ProcessedDoc) (key : string) (v : JsVal) :
  inherited key = false ->
  first_truthy (offered key docs) = Some v ->
  exists r, reconcile docs = Some r /\ formData r !! key = Some v.
Proof.
  intros Hi Hv. rewrite reconcile_answers. eexists; split; [done|]. simpl.
  pose proof (get_merge_entries (docs ≫= contribution) ∅ key) as Hget.
  unfold get at 2 in Hget. rewrite lookup_empty, Hi in Hget.
  rewrite (fold_step_first_truthy _ JUndefined v) in Hget by done.
  unfold get in Hget. rewrite Hi in Hget.
  apply head_Some_elem_of, list_elem_of_filter in Hv as [Hv _].
  destruct (_ !! key) as [w|]; [by subst|].
  subst v. done.
Qed.

(** First-wins holds whenever the first value that is not [null] is truthy. *)
Lemma merge_first_wins_when_truthy (docs : list ProcessedDoc) (key : string) (v : JsVal) :
  inherited key = false ->
  first_non_null (offered key docs) = Some v -> truthy v = true ->
  exists r, reconcile docs = Some r /\ formData r !! key = Some v.
Proof.
  intros Hi Hv Ht. apply merge_first_truthy_wins; [done|].
  revert Hv. unfold first_non_null, first_truthy.
  induction (offered key docs) as [|w vs IH]; [done|].
  rewrite !filter_cons. destruct (decide (is_null w = false)) as [Hn|Hn].
  - simpl. intros [= ->]. by rewrite decide_True.
  - intros Hv. rewrite decide_False; [by apply IH|].
    destruct (is_null w) eqn:E; [|done]. by rewrite (null_is_falsy _ E).
Qed.

(** Without any truthy value for a key, the last value offered that is not
    [null] is what reading the key gives ([undefined] when there is none). *)
Lemma merge_without_truthy (docs : list ProcessedDoc) (key : string) :
  inherited key = false ->
  first_truthy (offered key docs) = None ->
  exists r, reconcile docs = Some r /\
    get (formData r) key =
      default JUndefined
        (last (filter (fun v => is_null v = false) (offered key docs))).
Proof.
  intros Hi Hv. rewrite reconcile_answers. eexists; split; [done|]. simpl.
  rewrite get_merge_entries. unfold get at 1. rewrite lookup_empty, Hi.
  by apply fold_step_no_truthy.
Qed.

(** The two-document scenario: wages come from the first document, whose
    interest is [null]; interest comes from the second one, whose wages are
    [null]. *)
Lemma two_documents_scenario :
  exists r, reconcile [doc_wages_75000; doc_interest_1200] = Some r /\
    formData r !! "wages" = Some (JNum 75000) /\
    formData r !! "interest" = Some (JNum 1200) /\
    formData r !! "otherIncome" = None /\
    missingFields r =
      ["lastName"; "filingStatus"; "address"; "city"; "state"; "zip";
       "dividends"; "capitalGains"].
Proof.
  eexists; split; [reflexivity|]. repeat split; vm_compute; reflexivity.
Qed.

(** With wages other than 0 on both sides the order of the documents
    decides: the first document's wages are the merged wages. *)
Lemma order_decides_truthy_wages :
  (exists r, reconcile [doc_wages_75000; doc_wages_50000] = Some r /\
     formData r !! "wages" = Some (JNum 75000)) /\
  (exists r, reconcile [doc_wages_50000; doc_wages_75000] = Some r /\
     formData r !! "wages" = Some (JNum 50000)).
Proof.
  split; apply merge_first_wins_when_truthy; reflexivity.
Qed.

(** C1, where the merge departs from first-wins: for the batch
    [{firstName: "Ada", wages: 0}, {firstName: "Grace", wages: 50000}] the
    first value supplied for [wages] that is not [null] is the 0 of the
    first document, yet the merged record holds the 50000 of the second
    one: the 0 was set and then overwritten.  The truthy [firstName] of the
    first document is kept. *)
Theorem reconcile_overwrites_zero_wages :
  first_non_null (offered "wages" [doc_zero_wages; doc_wages_50000])
    = Some (JNum 0) /\
  exists r, reconcile [doc_zero_wages; doc_wages_50000] = Some r /\
    formData r !! "wages" = Some (JNum 50000) /\
    formData r !! "firstName" = Some (JStr "Ada").
Proof.
  split; [reflexivity|].
  eexists; split; [reflexivity|]. split; vm_compute; reflexivity.
Qed.

(** The missing-field list is the required-field list, in its order, cut
    down to the fields whose merged value is falsy. *)
Lemma missing_fields_are_falsy_required (docs : list ProcessedDoc) :
  exists r, reconcile docs = Some r /\
    missingFields r =
      filter (fun field => truthy (get (formData r) field) = false) requiredFields.
Proof.
  rewrite reconcile_answers. eexists; split; [done|]. simpl.
  rewrite check_missing_filter. apply list_filter_iff.
  intros field. split; intros H.
  - rewrite not_set_falsy in H. by destruct (truthy _).
  - rewrite not_set_falsy. by rewrite H.
Qed.

(** C3, where the check departs from absent-or-null: a single document
    that supplies all twelve required fields, with [interest: 0], leaves
    [interest] in the merged record with the value 0, neither absent nor
    [null], and still [interest] is reported missing. *)
Theorem zero_interest_reported_missing :
  exists r, reconcile [doc_complete_zero_interest] = Some r /\
    formData r !! "interest" = Some (JNum 0) /\
    missingFields r = ["interest"].
Proof.
  eexists; split; [reflexivity|]. split; vm_compute; reflexivity.
Qed.

(** C7: for every batch [S] and every further document [d] the handler
    answers for both [S] and [S ++ [d]], and the missing fields reported for
    [S ++ [d]] are among those reported for [S], in the same order. *)
Theorem missing_fields_shrink (S : list ProcessedDoc) (d : ProcessedDoc) :
  exists r r', reconcile S = Some r /\ reconcile (S ++ [d]) = Some r' /\
    missingFields r' ⊆ missingFields r /\
    missingFields r' `sublist_of` missingFields r.
Proof.
  rewrite !reconcile_answers. do 2 eexists. do 2 (split; [done|]). simpl.
  rewrite bind_app, fold_left_app, !check_missing_filter.
  assert (forall fd es,
    filter (fun field => not_set (fold_left merge_entry es fd) field = true)
      requiredFields
    `sublist_of` filter (fun field => not_set fd field = true) requiredFields)
    as Hsub.
  { intros fd es. apply filter_sublist_mono. intros x. apply not_set_merge_entries. }
  split; [apply sublist_subseteq|]; apply Hsub.
Qed.

Lemma vocabulary_not_inherited (key : string) :
  key ∈ vocabulary -> inherited key = false.
Proof.
  intros Hk. unfold vocabulary in Hk.
  repeat (apply elem_of_cons in Hk as [->|Hk]; [reflexivity|]).
  by apply elem_of_nil in Hk.
Qed.

Lemma not_supplied_null (key : string) (doc : ProcessedDoc) (v : JsVal) :
  supplies key doc = false -> (key, v) ∈ contribution doc -> is_null v = true.
Proof.
  unfold supplies. intros Hs Hin.
  destruct (is_null v) eqn:Hn; [done|].
  enough (existsb (fun kv : string * JsVal =>
                    String.eqb kv.1 key && negb (is_null kv.2))
                 (contribution doc) = true) by congruence.
  apply existsb_exists.
  exists (key, v). split; [by apply list_elem_of_In|].
  simpl. by rewrite String.eqb_refl, Hn.
Qed.

(** C6 does not hold as stated: the batch made of the one document
    [{firstName: "John", wages: null}] supplies no [wages], and the merged
    record has no [wages] property at all, so it does not hold 0. *)
Lemma numeric_fields_not_defaulted : ~ defaults_numeric_fields [doc_name_only].
Proof.
  intros H.
  destruct (H _ eq_refl "wages") as (q & Hq & _).
  - compute_done.
  - repeat constructor.
  - vm_compute in Hq. discriminate.
Qed.

(** C6, amended: after reconciliation a field of the vocabulary, numeric or
    not, that no document of the batch supplies is absent from the merged
    record: reading it gives [undefined], nothing is defaulted. *)
Theorem unsupplied_fields_stay_absent (docs : list ProcessedDoc) (key : string) :
  key ∈ vocabulary ->
  Forall (fun doc => supplies key doc = false) docs ->
  exists r, reconcile docs = Some r /\
    formData r !! key = None /\ get (formData r) key = JUndefined.
Proof.
  intros Hk Hno. rewrite reconcile_answers. eexists; split; [done|]. simpl.
  assert (fold_left merge_entry (docs ≫= contribution) ∅ !! key = None) as Hnone.
  { rewrite lookup_merge_entries_null; [apply lookup_empty|].
    intros v (doc & Hv & Hdoc)%list_elem_of_bind.
    rewrite Forall_forall in Hno.
    eapply not_supplied_null; [by apply Hno|done]. }
  split; [done|].
  unfold get. by rewrite Hnone, (vocabulary_not_inherited _ Hk).
Qed.

(** The amended C6 at the batch [[doc_name_only]] and the field [wages]. *)
Lemma unsupplied_fields_stay_absent_witness :
  exists r, reconcile [doc_name_only] = Some r /\
    formData r !! "wages" = None /\ get (formData r) "wages" = JUndefined.
Proof.
  apply (unsupplied_fields_stay_absent [doc_name_only] "wages").
  - compute_done.
  - repeat constructor.
Defined.

(** * The claims about the extraction *)

Section ExtractionFacts.

Variable JSON_parse : string -> option JsVal.
Variable findOneAndUpdate : JsVal -> bool.

(** A reply with neither a fenced block nor braces is not parsed at all:
    the analysis is the fallback object with the sole property [error]. *)
Lemma process_reply_no_json (text : string) :
  match_fenced text = None -> match_braces text = None ->
  process_reply JSON_parse findOneAndUpdate text =
    if findOneAndUpdate (JObj [("error", JStr no_json_message)])
    then analysed [("error", JStr no_json_message)]
    else failed text.
Proof.
  intros Hf Hb. unfold process_reply, jsonMatch. rewrite Hf, Hb. done.
Qed.

(** A [SyntaxError] of [JSON.parse] is caught. *)
Lemma process_reply_syntax_error (text : string) (m : RegExpMatch) :
  jsonMatch text = Some m ->
  JSON_parse (Str.trim (jsonStr_of m)) = None ->
  process_reply JSON_parse findOneAndUpdate text = failed text.
Proof. intros Hm Hp. unfold process_reply. by rewrite Hm, Hp. Qed.

(** Whatever the reply, the processed document is one of three shapes. *)
Lemma process_reply_shapes (text : string) :
  let doc := process_reply JSON_parse findOneAndUpdate text in
  doc = failed text
  \/ doc = analysed [("error", JStr no_json_message)]
  \/ exists m data, jsonMatch text = Some m
       /\ JSON_parse (Str.trim (jsonStr_of m)) = Some data
       /\ doc = mkDoc data JUndefined JUndefined.
Proof.
  unfold process_reply. destruct (jsonMatch text) as [m|] eqn:Hm.
  - destruct (JSON_parse _) as [data|] eqn:Hp; [|by left].
    destruct (findOneAndUpdate data); [|by left].
    right; right. by exists m, data.
  - destruct (findOneAndUpdate _); [right; by left | by left].
Qed.

End ExtractionFacts.

Lemma values_for_unique (key : string) (v : JsVal) (props : list (string * JsVal)) :
  NoDup props.*1 -> (key, v) ∈ props -> values_for key props = [v].
Proof.
  induction props as [|[k w] props IH]; intros Hnd Hin.
  - by apply elem_of_nil in Hin.
  - rewrite fmap_cons in Hnd. apply NoDup_cons in Hnd as [Hk Hnd].
    rewrite values_for_cons. apply elem_of_cons in Hin as [[= <- <-]|Hin].
    + rewrite decide_True by done. f_equal.
      destruct (values_for key props) as [|u us] eqn:E; [done|].
      destruct Hk. apply list_elem_of_fmap. exists (key, u). split; [done|].
      apply elem_of_values_for. rewrite E. by left.
    + rewrite decide_False; [by apply IH|].
      intros ->. apply Hk. apply list_elem_of_fmap. by exists (key, v).
Qed.

(** A document with an error of its own is skipped by the merge loop. *)
Lemma error_doc_contributes_nothing (doc : ProcessedDoc) :
  truthy (error doc) = true -> contribution doc = [].
Proof.
  intros He. unfold contribution, mergeable. rewrite He.
  by rewrite andb_false_r.
Qed.

(** An error-marked document offers nothing for any key but [error]. *)
Lemma error_marked_offers_nothing (doc : ProcessedDoc) (key : string) :
  error_marked doc = true -> key <> "error" ->
  values_for key (contribution doc) = [].
Proof.
  unfold error_marked. intros Hm Hk.
  destruct (truthy (error doc)) eqn:He.
  - by rewrite error_doc_contributes_nothing.
  - simpl in Hm. unfold contribution. destruct (mergeable doc); [|done].
    destruct (analysis doc) as [| | | | | |props|]; try discriminate.
    destruct props as [|[k v] [|]]; try discriminate.
    apply String.eqb_eq in Hm as ->. simpl.
    rewrite values_for_cons. by rewrite decide_False.
Qed.

Lemma lookup_merge_entry_congr (fd1 fd2 : gmap string JsVal)
    (kv : string * JsVal) (k : string) :
  fd1 !! k = fd2 !! k -> merge_entry fd1 kv !! k = merge_entry fd2 kv !! k.
Proof.
  intros Heq. destruct kv as [k' v]. unfold merge_entry, not_set.
  destruct (decide (k' = k)) as [->|Hne].
  - unfold get. rewrite Heq.
    destruct (negb (is_null v) && _); [|done]. by rewrite !lookup_insert_eq.
  - destruct (negb (is_null v) && _); destruct (negb (is_null v) && _);
      by rewrite ?lookup_insert_ne.
Qed.

Lemma lookup_merge_entries_congr (es : list (string * JsVal))
    (fd1 fd2 : gmap string JsVal) (k : string) :
  fd1 !! k = fd2 !! k ->
  fold_left merge_entry es fd1 !! k = fold_left merge_entry es fd2 !! k.
Proof.
  revert fd1 fd2. induction es as [|kv es IH]; intros fd1 fd2 Heq; [done|].
  simpl. apply IH. by apply lookup_merge_entry_congr.
Qed.

Lemma lookup_merge_skip_marked (docs : list ProcessedDoc) (key : string)
    (fd1 fd2 : gmap string JsVal) :
  key <> "error" -> fd1 !! key = fd2 !! key ->
  fold_left merge_entry (docs ≫= contribution) fd1 !! key =
  fold_left merge_entry
    ((filter (fun doc => error_marked doc = false) docs) ≫= contribution) fd2
    !! key.
Proof.
  intros Hk. revert fd1 fd2.
  induction docs as [|doc docs IH]; intros fd1 fd2 Heq; [done|].
  rewrite bind_cons, fold_left_app, filter_cons.
  destruct (decide (error_marked doc = false)) as [Hm|Hm].
  - rewrite bind_cons, fold_left_app. apply IH.
    by apply lookup_merge_entries_congr.
  - apply IH. rewrite <- Heq. apply lookup_merge_entries_null.
    intros v Hv%elem_of_values_for.
    rewrite error_marked_offers_nothing in Hv; [|by destruct (error_marked doc)|done].
    by apply elem_of_nil in Hv.
Qed.

(** What does hold for a batch with failed documents: a document that
    failed, whichever way it is marked, changes the merged record at no key
    but [error]. *)
Lemma error_marked_docs_leave_other_keys (docs : list ProcessedDoc) (key : string) :
  key <> "error" ->
  exists r r0,
    reconcile docs = Some r /\
    reconcile (filter (fun doc => error_marked doc = false) docs) = Some r0 /\
    formData r !! key = formData r0 !! key.
Proof.
  intros Hk. rewrite !reconcile_answers. do 2 eexists. do 2 (split; [done|]).
  simpl. by apply lookup_merge_skip_marked.
Qed.

(** C8, where the merge departs from it: the reply [reply_prose] has
    neither a fenced block nor braces; its processed document carries the
    error marker inside its analysis, not on the document, so the guard of
    the merge loop lets it through; in the batch of the replies
    [reply_wages] and [reply_prose] the marker ends up in the merged record
    under the key [error], which merging only the documents without error
    markers does not produce. *)
Theorem unparsable_reply_is_merged :
  match_fenced reply_prose = None /\ match_braces reply_prose = None /\
  error_marked (process_reply Json.parse stored reply_prose) = true /\
  mergeable (process_reply Json.parse stored reply_prose) = true /\
  exists r,
    extract_tax_info Json.parse stored
      [Replied reply_wages; Replied reply_prose] = Some r /\
    formData r !! "wages" = Some (JNum 75000) /\
    formData r !! "error" = Some (JStr no_json_message) /\
    exists r0,
      reconcile (filter (fun doc => error_marked doc = false) (documents r))
        = Some r0 /\
      formData r0 !! "wages" = Some (JNum 75000) /\
      formData r0 !! "error" = None.
Proof.
  do 4 (split; [vm_compute; reflexivity|]).
  eexists; split; [reflexivity|].
  do 2 (split; [vm_compute; reflexivity|]).
  eexists; split; [reflexivity|].
  split; vm_compute; reflexivity.
Qed.

(** C9 does not hold as stated: the reply [reply_extra_field] carries the JSON
    object [{employer: "ACME", wages: "75,000"}] in a fenced block; its
    analysis still has the field [employer], which is not in the
    vocabulary. *)
Lemma extra_field_not_discarded :
  ~ sanitized (analysis (process_reply Json.parse stored reply_extra_field)).
Proof.
  intros H.
  destruct (H [("employer", JStr "ACME"); ("wages", JStr "75,000")] eq_refl
              "employer" (JStr "ACME")) as [Hin _].
  - apply list_elem_of_here.
  - revert Hin. compute_done.
Qed.

Lemma first_truthy_app (vs ws : list JsVal) :
  first_truthy (vs ++ ws)
  = match first_truthy vs with
    | Some v => Some v
    | None => first_truthy ws
    end.
Proof.
  unfold first_truthy. rewrite filter_app.
  by destruct (filter _ vs).
Qed.

Lemma offered_middle (key : string) (before after : list ProcessedDoc)
    (doc : ProcessedDoc) :
  offered key (before ++ doc :: after)
  = offered key before ++ values_for key (contribution doc)
    ++ offered key after.
Proof.
  unfold offered. by rewrite bind_app, bind_cons, !values_for_app.
Qed.

(** C9, amended: when the reply holds a JSON text that [JSON.parse]
    accepts and the update of the stored document succeeds, the value
    [JSON.parse] returns becomes the analysis of the document as it is: no
    field is discarded and no value is coerced.  Wherever the document
    stands in a batch, a truthy property of a parsed object, in the
    vocabulary or not and of whatever type, is copied into the merged
    record when no earlier document offers a truthy value under its key
    (names inherited from [Object.prototype] apart); when an earlier
    document does, the first such value is kept.  When [JSON.parse] or
    the update throws, the caller gets a document with an error and no
    analysis. *)
Theorem parsed_fields_are_kept (JSON_parse : string -> option JsVal)
    (findOneAndUpdate : JsVal -> bool) (reply : string) (m : RegExpMatch) :
  jsonMatch reply = Some m ->
  let doc := process_reply JSON_parse findOneAndUpdate reply in
  (forall data,
     JSON_parse (Str.trim (jsonStr_of m)) = Some data ->
     (findOneAndUpdate data = true ->
      analysis doc = data /\ error doc = JUndefined /\
      forall before after props key value,
        data = JObj props -> NoDup props.*1 -> (key, value) ∈ props ->
        truthy value = true -> inherited key = false ->
        exists r, reconcile (before ++ doc :: after) = Some r /\
          formData r !! key
          = Some (default value (first_truthy (offered key before)))) /\
     (findOneAndUpdate data = false ->
      analysis doc = JUndefined /\ error doc = JStr parse_failed_message)) /\
  (JSON_parse (Str.trim (jsonStr_of m)) = None ->
   analysis doc = JUndefined /\ error doc = JStr parse_failed_message).
Proof.
  intros Hm doc. subst doc. unfold process_reply. rewrite Hm. split.
  - intros data ->. split; intros ->; [|done]. do 2 (split; [done|]).
    intros before after props key value -> Hnd Hin Ht Hi.
    apply merge_first_truthy_wins; [done|].
    rewrite offered_middle, first_truthy_app.
    destruct (first_truthy (offered key before)); [done|]. simpl.
    change (contribution (mkDoc (JObj props) JUndefined JUndefined)) with props.
    rewrite (values_for_unique key value) by done.
    unfold first_truthy. cbn [app]. rewrite filter_cons. by rewrite decide_True.
  - by intros ->.
Qed.

(** The amended C9 at [reply_extra_field]: alone or after a document
    without wages, the string ["75,000"] parsed for the numeric field
    [wages] reaches the merged record as it is, as does the field
    [employer]; after a document with the wages 75000, the wages stay
    75000 and [employer] is still copied. *)
Lemma parsed_fields_are_kept_witness :
  (exists r,
     reconcile ([doc_interest_1200]
                ++ process_reply Json.parse stored reply_extra_field :: [])
     = Some r /\
     formData r !! "wages" = Some (JStr "75,000")) /\
  (exists r,
     reconcile ([doc_wages_75000]
                ++ process_reply Json.parse stored reply_extra_field :: [])
     = Some r /\
     formData r !! "wages" = Some (JNum 75000)) /\
  (exists r,
     reconcile ([doc_wages_75000]
                ++ process_reply Json.parse stored reply_extra_field :: [])
     = Some r /\
     formData r !! "employer" = Some (JStr "ACME")).
Proof.
  destruct (parsed_fields_are_kept Json.parse stored reply_extra_field
              match_extra_field eq_refl) as [Hkept _].
  destruct (Hkept (JObj [("employer", JStr "ACME"); ("wages", JStr "75,000")])
              eq_refl) as [Hstored _].
  destruct (Hstored eq_refl) as (_ & _ & Hmerge).
  assert (NoDup ([("employer", JStr "ACME"); ("wages", JStr "75,000")].*1))
    as Hnd by (cbn; compute_done).
  split; [|split].
  - apply (Hmerge [doc_interest_1200] [] _ "wages" (JStr "75,000") eq_refl Hnd);
      [apply list_elem_of_further, list_elem_of_here|reflexivity|reflexivity].
  - apply (Hmerge [doc_wages_75000] [] _ "wages" (JStr "75,000") eq_refl Hnd);
      [apply list_elem_of_further, list_elem_of_here|reflexivity|reflexivity].
  - apply (Hmerge [doc_wages_75000] [] _ "employer" (JStr "ACME") eq_refl Hnd);
      [apply list_elem_of_here|reflexivity|reflexivity].
Defined.

(** * The tax computation over exact rationals *)

Section TaxFacts.

Import Form1040.
Local Open Scope Q_scope.

Implicit Types (data : Form1040Data) (x lo hi : Q).



(** *** The bracket tax *)









Lemma Math_round_nearest x :
  inject_Z (Math_round x) - (1 # 2) <= x /\ x < inject_Z (Math_round x) + (1 # 2).
Proof.
  unfold Math_round.
  pose proof (Qfloor_le (x + (1 # 2))) as Hle.
  pose proof (Qlt_floor (x + (1 # 2))) as Hlt.
  rewrite inject_Z_plus in Hlt. change (inject_Z 1) with 1 in Hlt.
  split; lra.
Qed.

End TaxFacts.

(** * The claims about the tax computation *)

Section Binary64Facts.

Import PrimFloat Binary64.
Local Open Scope float_scope.

Implicit Types (data : Form1040Data) (x d : float).

Lemma SFcompare_refl (f : SpecFloat.spec_float) :
  f <> SpecFloat.S754_nan -> SpecFloat.SFcompare f f = Some Eq.
Proof.
  destruct f as [s|s| |s m e]; intros Hf; try done.
  - by destruct s.
  - simpl. rewrite Z.compare_refl, Pos.compare_cont_refl. by destruct s.
Qed.

Lemma sign_cases x : Sign x.
Proof.
  pose proof (FloatAxioms.eqb_spec x 0) as He.
  pose proof (FloatAxioms.eqb_spec x x) as Hn.
  pose proof (FloatAxioms.ltb_spec 0 x) as Hp.
  pose proof (FloatAxioms.ltb_spec x 0) as Hm.
  pose proof (FloatAxioms.leb_spec x 0) as Hl.
  change (FloatOps.Prim2SF 0) with (SpecFloat.S754_zero false) in *.
  unfold SpecFloat.SFeqb, SpecFloat.SFltb, SpecFloat.SFleb in *.
  destruct (FloatOps.Prim2SF x) as [s|s| |s m e] eqn:E.
  - apply sign_zero; unfold is_nan; rewrite ?He, ?Hn, ?Hp, ?Hm, ?Hl; done.
  - rewrite SFcompare_refl in Hn by done.
    destruct s; [apply sign_neg|apply sign_pos]; unfold is_nan;
      rewrite ?He, ?Hn, ?Hp, ?Hm, ?Hl; done.
  - apply sign_nan; unfold is_nan; rewrite ?He, ?Hn, ?Hp, ?Hm, ?Hl; done.
  - rewrite SFcompare_refl in Hn by done.
    destruct s; [apply sign_neg|apply sign_pos]; unfold is_nan;
      rewrite ?He, ?Hn, ?Hp, ?Hm, ?Hl; done.
Qed.

Ltac by_sign x :=
  let H1 := fresh in let H2 := fresh in let H3 := fresh in
  let H4 := fresh in let H5 := fresh in
  destruct (sign_cases x) as [H1 H2 H3 H4 H5|H1 H2 H3 H4 H5
                             |H1 H2 H3 H4 H5|H1 H2 H3 H4 H5];
  rewrite ?H1, ?H2, ?H3, ?H4, ?H5 in *; try done; try congruence.

Lemma falsy_zero_or_nan x :
  (x =? 0) = true \/ is_nan x = true -> falsy x = true.
Proof.
  unfold falsy, is_zero. change zero with 0.
  intros [-> | ->]; [done|by rewrite orb_true_r].
Qed.

Lemma truthy_signed x :
  (0 <? x) = true \/ (x <? 0) = true -> falsy x = false.
Proof.
  unfold falsy, is_zero. change zero with 0.
  intros H. by_sign x; by destruct H.
Qed.

Lemma or_else_falsy d (fallback : float) :
  (d =? 0) = true \/ is_nan d = true -> or_else (Some d) fallback = fallback.
Proof. intros H. simpl. by rewrite falsy_zero_or_nan. Qed.

Lemma or_else_truthy d (fallback : float) :
  (0 <? d) = true \/ (d <? 0) = true -> or_else (Some d) fallback = d.
Proof. intros H. simpl. by rewrite truthy_signed. Qed.

Lemma Math_max0_not_negative x : (Math_max0 x <? 0) = false.
Proof.
  unfold Math_max0. by_sign x.
Qed.

Lemma Math_max0_not_positive x : (x <=? 0) = true -> Math_max0 x = 0.
Proof.
  unfold Math_max0. intros Hl. by_sign x.
Qed.

Lemma Math_max0_positive x : (0 <? x) = true -> Math_max0 x = x.
Proof.
  unfold Math_max0. intros Hp. by_sign x.
Qed.

Lemma Math_round_exact x (q : Q) :
  to_Q x = Some q -> Math_round x = Some (Form1040.Math_round q).
Proof. unfold Math_round. by intros ->. Qed.

Lemma standardDeduction_lookup data (v : float) :
  table_lookup (filingStatus data) deduction_table = Some v ->
  standardDeduction data = v.
Proof.
  unfold standardDeduction. simpl.
  repeat (destruct (String.eqb (filingStatus data) _); simpl; [congruence|]).
  discriminate.
Qed.

Lemma standardDeduction_other data :
  filingStatus data <> "single" ->
  filingStatus data <> "married_separate" ->
  filingStatus data <> "head_of_household" ->
  standardDeduction data = 25900.
Proof.
  intros H1 H2 H3. unfold standardDeduction.
  apply String.eqb_neq in H1, H2, H3. by rewrite H1, H2, H3.
Qed.

(** C2 does not hold as stated.  For the record [record_tie] the taxable
    income is the binary64 number just below 25; the code multiplies it by
    0.10, which rounds to 2.5, and prints the tax 3, while the
    progressive tax of that taxable income is less than 2.5 and rounds to
    2.  For the record [record_drift], whose amounts have two decimals,
    the code prints the tax 10054, while the progressive tax of its
    taxable income of 65625 is 10054.50 and rounds to 10055. *)
Lemma tax_is_not_exact_bracket_tax :
  ((taxableIncome record_tie <? 25) = true /\
   estimatedTax (taxableIncome record_tie) = 2.5 /\
   tax record_tie = Some 3%Z /\
   exact_tax (taxableIncome record_tie) = Some 2%Z) /\
  (tax record_drift = Some 10054%Z /\
   (Form1040.taxableIncome record_drift_exact == 65625)%Q /\
   (Form1040.bracket_tax 65625 == 100545 # 10)%Q /\
   Form1040.tax record_drift_exact = 10055%Z).
Proof. repeat split; vm_compute; reflexivity. Qed.

(** C2, amended: for every record the estimated tax is the tax of the
    schedule 10%, 12%, 22%, 24%, 32%, 35%, 37% with thresholds 10275,
    41775, 89075, 170050, 215950, 539900 computed in binary64 arithmetic:
    taxable income times 10% up to the first threshold, above it the
    cumulative tax at the lower threshold of the bracket plus the part of
    the taxable income above that threshold times the rate of the bracket,
    every product and sum rounded to the nearest binary64 number; the
    cumulative amounts so computed are the constants of the code, 1027.50,
    4807.50, 15213.50, 34647.50, 49335.50 and 162718.  The tax line is
    that binary64 number rounded to the nearest integer, a tie going up; a
    taxable income of 0 gives 0, one of 10275 gives 1028 and one of 41775
    gives 4808. *)
Theorem tax_is_rounded_binary64_bracket_tax :
  (forall income, estimatedTax income = bracket_tax income) /\
  (forall data, tax data = Math_round (bracket_tax (taxableIncome data))) /\
  (forall x (q : Q), to_Q x = Some q ->
     exists n, Math_round x = Some n /\
       (inject_Z n - (1 # 2) <= q /\ q < inject_Z n + (1 # 2))%Q) /\
  (bracket_tax 10275 = 1027.5 /\ bracket_tax 41775 = 4807.5 /\
   bracket_tax 89075 = 15213.5 /\ bracket_tax 170050 = 34647.5 /\
   bracket_tax 215950 = 49335.5 /\ bracket_tax 539900 = 162718) /\
  (forall data, taxableIncome data = 0 -> tax data = Some 0%Z) /\
  (forall data, taxableIncome data = 10275 -> tax data = Some 1028%Z) /\
  (forall data, taxableIncome data = 41775 -> tax data = Some 4808%Z).
Proof.
  assert (forall income, estimatedTax income = bracket_tax income) as Hb.
  { intros income. unfold estimatedTax, bracket_tax, first_threshold, first_rate.
    destruct (income <=? 10275); [done|]. cbn [cumulative brackets].
    repeat (match goal with
            | |- context [if (income <=? ?hi) then _ else _] =>
                destruct (income <=? hi); [reflexivity|]
            end).
    reflexivity. }
  split; [done|]. split; [intros data; unfold tax; by rewrite Hb|].
  split.
  { intros x q Hq. exists (Form1040.Math_round q).
    split; [by apply Math_round_exact|apply Math_round_nearest]. }
  split; [repeat split; reflexivity|].
  repeat split; intros data Ht; unfold tax; rewrite Ht; reflexivity.
Qed.

(** The amended C2 at a single filer with wages 18175 (taxable income
    10275) and at one with wages 0 (taxable income 0). *)
Lemma tax_is_rounded_binary64_bracket_tax_witness :
  tax (sample "single" 18175 None None) = Some 1028%Z /\
  tax (sample "single" 0 None None) = Some 0%Z.
Proof.
  destruct tax_is_rounded_binary64_bracket_tax
    as (_ & _ & _ & _ & H0 & H1 & _).
  split.
  - apply (H1 (sample "single" 18175 None None)). reflexivity.
  - apply (H0 (sample "single" 0 None None)). reflexivity.
Defined.

(** C4 does not hold as stated: for the record [record_cents], with wages
    12954.90, interest 0.05, dividends 0.05 and deductions 12950.00, the
    total income the code computes is less than 12955, the sum of the
    amounts, and is not the sum of the binary64 amounts either; the
    taxable income is less than 5, so that the tax line is 0 where the
    exact lines give 1. *)
Lemma total_income_is_not_the_exact_sum :
  ((totalIncome record_cents <? 12955) = true /\
   (Form1040.totalIncome record_cents_exact == 12955)%Q) /\
  ((taxableIncome record_cents <? 5) = true /\
   (Form1040.taxableIncome record_cents_exact == 5)%Q) /\
  (tax record_cents = Some 0%Z /\ Form1040.tax record_cents_exact = 1%Z) /\
  exists w i v g t : Q,
    to_Q (wages record_cents) = Some w /\
    to_Q (interest record_cents) = Some i /\
    to_Q (dividends record_cents) = Some v /\
    to_Q (capitalGains record_cents) = Some g /\
    to_Q (totalIncome record_cents) = Some t /\
    (t < w + i + v + g + 0)%Q.
Proof.
  do 3 (split; [split; vm_compute; reflexivity|]).
  do 5 eexists. do 5 (split; [vm_compute; reflexivity|]).
  vm_compute. reflexivity.
Qed.

(** C4, amended: for every record, in binary64 arithmetic, the total
    income is wages + interest + dividends + capital gains + other income,
    added in this order and rounded after every addition, a falsy or
    absent other income counting as 0; the adjusted gross income is the
    total income minus the adjustments, whatever its sign; the taxable
    income is the larger of 0 and the adjusted gross income minus the
    deduction applied, which is the deductions of the record or else the
    standard deduction, and it is never negative.  A record whose
    adjustments exceed its income has a negative adjusted gross income. *)
Theorem income_lines_in_binary64 :
  (forall data,
     totalIncome data
       = wages data + interest data + dividends data + capitalGains data
         + or_else (otherIncome data) 0 /\
     (otherIncome data = None ->
      totalIncome data
        = wages data + interest data + dividends data + capitalGains data + 0) /\
     adjustedGrossIncome data
       = totalIncome data - or_else (adjustments data) 0 /\
     taxableIncome data
       = Math_max0 (adjustedGrossIncome data
                    - or_else (deductions data) (standardDeduction data)) /\
     (taxableIncome data <? 0) = false /\
     ((adjustedGrossIncome data - deductionApplied data <=? 0) = true ->
      taxableIncome data = 0) /\
     ((0 <? adjustedGrossIncome data - deductionApplied data) = true ->
      taxableIncome data = adjustedGrossIncome data - deductionApplied data)) /\
  (totalIncome (sample "single" 75000 None None) = 80050 /\
   adjustedGrossIncome (sample "single" 75000 (Some 5000) None) = 75050 /\
   taxableIncome (sample "single" 75000 (Some 5000) None) = 62100) /\
  (adjustedGrossIncome (sample "single" 20000 (Some 30000) None) = -4950 /\
   taxableIncome (sample "single" 20000 (Some 30000) None) = 0).
Proof.
  split; [|split; repeat split; reflexivity].
  intros data. split; [done|]. split; [by unfold totalIncome; intros ->|].
  split; [done|]. split; [done|].
  split; [apply Math_max0_not_negative|].
  split; [apply Math_max0_not_positive|apply Math_max0_positive].
Qed.

(** The amended C4 at a record whose deductions exceed its adjusted gross
    income: the taxable income is 0. *)
Lemma income_lines_in_binary64_witness :
  taxableIncome (sample "single" 5000 None None) = 0.
Proof.
  apply (proj1 income_lines_in_binary64 (sample "single" 5000 None None)).
  reflexivity.
Defined.

(** C5 does not hold as stated: a single filer with deductions -1000
    carries no deductions value greater than 0, yet the deduction applied
    is -1000 and not the 12950 of the table. *)
Lemma negative_deductions_replace_the_lookup :
  table_lookup "single" deduction_table = Some 12950 /\
  (0 <? -1000) = false /\
  deductionApplied (sample "single" 75000 None (Some (-1000))) = -1000 /\
  taxableIncome (sample "single" 75000 None (Some (-1000))) = 81050.
Proof. repeat split; reflexivity. Qed.

(** C5, amended: for a record whose filing status is one of the five of
    the table (single 12950, married_separate 12950, head_of_household
    19400, married_joint 25900, qualifying_widow 25900) the standard
    deduction is the table's value; the deduction applied is that value
    when the record has no deductions or deductions that are 0 or NaN, and
    the deductions of the record in every other case, when they are
    greater than 0 and when they are less; it is what the taxable income
    subtracts. *)
Theorem deduction_is_lookup_or_truthy_value data (v : float) :
  table_lookup (filingStatus data) deduction_table = Some v ->
  standardDeduction data = v /\
  (deductions data = None -> deductionApplied data = v) /\
  (forall d, deductions data = Some d ->
     ((d =? 0) = true \/ is_nan d = true -> deductionApplied data = v) /\
     ((0 <? d) = true \/ (d <? 0) = true -> deductionApplied data = d) /\
     ((d =? 0) = true \/ is_nan d = true \/ (0 <? d) = true \/ (d <? 0) = true)) /\
  taxableIncome data
    = Math_max0 (adjustedGrossIncome data - or_else (deductions data) v).
Proof.
  intros Hv. pose proof (standardDeduction_lookup data v Hv) as Hs.
  split; [done|]. unfold taxableIncome, deductionApplied. rewrite Hs.
  split; [by intros ->|]. split; [|done].
  intros d ->. split; [apply or_else_falsy|]. split; [apply or_else_truthy|].
  destruct (sign_cases d); auto.
Qed.

(** The amended C5 at a single filer with deductions 0 and with deductions
    15000. *)
Lemma deduction_is_lookup_or_truthy_value_witness :
  deductionApplied (sample "single" 75000 None (Some 0)) = 12950 /\
  deductionApplied (sample "single" 75000 None (Some 15000)) = 15000.
Proof.
  split.
  - destruct (deduction_is_lookup_or_truthy_value
                (sample "single" 75000 None (Some 0)) 12950 eq_refl)
      as (_ & _ & H & _).
    destruct (H 0 eq_refl) as [H0 _]. apply H0. by left.
  - destruct (deduction_is_lookup_or_truthy_value
                (sample "single" 75000 None (Some 15000)) 12950 eq_refl)
      as (_ & _ & H & _).
    destruct (H 15000 eq_refl) as (_ & H1 & _). apply H1. by left.
Defined.

(** C10 does not hold as stated: the record with the filing status
    [Single] and deductions -1000 supplies no deductions greater than 0,
    yet the deduction applied is -1000 and not 25900. *)
Lemma other_status_negative_deductions :
  standardDeduction (sample "Single" 75000 None (Some (-1000))) = 25900 /\
  (0 <? -1000) = false /\
  deductionApplied (sample "Single" 75000 None (Some (-1000))) = -1000.
Proof. repeat split; reflexivity. Qed.

(** C10, amended: for a record whose filing status is none of the strings
    [single], [married_separate] and [head_of_household] the standard
    deduction is 25900; it is the deduction applied, and what the taxable
    income subtracts, when the record has no deductions or deductions that
    are 0 or NaN; deductions of any other value, negative ones included,
    are applied instead. *)
Theorem other_status_falls_back_on_25900 data :
  filingStatus data <> "single" ->
  filingStatus data <> "married_separate" ->
  filingStatus data <> "head_of_household" ->
  standardDeduction data = 25900 /\
  ((forall d, deductions data = Some d -> (d =? 0) = true \/ is_nan d = true) ->
   deductionApplied data = 25900 /\
   taxableIncome data = Math_max0 (adjustedGrossIncome data - 25900)) /\
  (forall d, deductions data = Some d ->
     (0 <? d) = true \/ (d <? 0) = true -> deductionApplied data = d).
Proof.
  intros H1 H2 H3. pose proof (standardDeduction_other data H1 H2 H3) as Hs.
  split; [done|]. unfold taxableIncome, deductionApplied. rewrite Hs. split.
  - intros Hd. destruct (deductions data) as [d|]; [|done].
    by rewrite (or_else_falsy d 25900 (Hd d eq_refl)).
  - intros d ->. apply or_else_truthy.
Qed.

(** The amended C10 at the filing status [Single], a casing variant, and
    at [widowed], a value outside the enumeration. *)
Lemma other_status_falls_back_on_25900_witness :
  standardDeduction (sample "Single" 75000 None None) = 25900 /\
  deductionApplied (sample "Single" 75000 None None) = 25900 /\
  deductionApplied (sample "widowed" 75000 None (Some 0)) = 25900.
Proof.
  destruct (other_status_falls_back_on_25900 (sample "Single" 75000 None None))
    as (Hs & Hd & _); [discriminate..|].
  destruct (other_status_falls_back_on_25900
              (sample "widowed" 75000 None (Some 0)))
    as (_ & Hw & _); [discriminate..|].
  split; [done|]. split.
  - apply Hd. intros d. discriminate.
  - apply Hw. intros d [= <-]. by left.
Defined.

End Binary64Facts.

(** * Comparisons between amounts of the form, over exact rationals *)

Section TaxMore.

Import Form1040.
Local Open Scope Q_scope.

Implicit Types (data : Form1040Data) (x y lo hi : Q).








End TaxMore.

(** * The masked social security number *)

Lemma substring_skip_prefix (a t : string) (n : nat) :
  String.substring (String.length a) n (a ++ t) = String.substring 0 n t.
Proof. induction a as [|c a IH]; [done|]. simpl. apply IH. Qed.

Lemma substring_whole (t : string) :
  String.substring 0 (String.length t) t = t.
Proof. induction t as [|c t IH]; [done|]. simpl. by rewrite IH. Qed.

Lemma substring_beyond (t : string) (n : nat) :
  String.length t <= n -> String.substring 0 n t = t.
Proof.
  revert n. induction t as [|c t IH]; intros n Hn; [by destruct n|].
  destruct n as [|n]; [simpl in Hn; lia|]. simpl. rewrite IH; [done|].
  simpl in Hn. lia.
Qed.

Lemma string_length_app (a t : string) :
  String.length (a ++ t) = String.length a + String.length t.
Proof. induction a as [|c a IH]; [done|]. simpl. by rewrite IH. Qed.

(** X5: the masked number shows the last four characters of the number and
    nothing else of it: two numbers with the same last four characters are
    printed alike.  A number of at most four characters is printed whole. *)
Theorem masked_ssn_shows_last_four :
  (forall a b t : string, String.length t = 4 ->
     Pdf.masked_ssn (a ++ t) = ("XXX-XX-" ++ t)%string /\
     Pdf.masked_ssn (a ++ t) = Pdf.masked_ssn (b ++ t)) /\
  (forall s : string, String.length s <= 4 ->
     Pdf.masked_ssn s = ("XXX-XX-" ++ s)%string).
Proof.
  assert (forall a t : string, String.length t = 4 ->
            Pdf.masked_ssn (a ++ t) = ("XXX-XX-" ++ t)%string) as Hmask.
  { intros a t Ht. unfold Pdf.masked_ssn, Pdf.slice_last. f_equal.
    rewrite string_length_app, Ht.
    replace (String.length a + 4 - 4) with (String.length a) by lia.
    rewrite substring_skip_prefix, <- Ht. apply substring_whole. }
  split.
  - intros a b t Ht. by rewrite !Hmask.
  - intros s Hs. unfold Pdf.masked_ssn, Pdf.slice_last. f_equal.
    replace (String.length s - 4) with 0 by lia.
    by apply substring_beyond.
Qed.

Lemma masked_ssn_shows_last_four_witness :
  Pdf.masked_ssn "123456789" = "XXX-XX-6789" /\
  Pdf.masked_ssn "123456789" = Pdf.masked_ssn "987656789" /\
  Pdf.masked_ssn "123" = "XXX-XX-123".
Proof.
  destruct masked_ssn_shows_last_four as [Hlast Hshort].
  split; [|split].
  - apply (Hlast "12345" "98765" "6789" eq_refl).
  - apply (Hlast "12345" "98765" "6789" eq_refl).
  - apply (Hshort "123"). simpl. lia.
Defined.

(** * Further properties of the reconciler *)

Lemma settled_get (fd : gmap string JsVal) (k : string) :
  settled k (fd !! k) = truthy (get fd k).
Proof. done. Qed.

Lemma lookup_merge_entry (fd : gmap string JsVal) (k' k : string) (v : JsVal) :
  merge_entry fd (k', v) !! k =
    if decide (k' = k) then own_step k (fd !! k) v else fd !! k.
Proof.
  unfold merge_entry, own_step. rewrite not_set_falsy.
  destruct (decide (k' = k)) as [->|Hne].
  - rewrite settled_get.
    destruct (negb (is_null v) && _); [|done]. by rewrite lookup_insert_eq.
  - destruct (negb (is_null v) && _); [|done]. by rewrite lookup_insert_ne.
Qed.

Lemma lookup_merge_entries (es : list (string * JsVal))
    (fd : gmap string JsVal) (k : string) :
  fold_left merge_entry es fd !! k =
    fold_left (own_step k) (values_for k es) (fd !! k).
Proof.
  revert fd. induction es as [|[k' v] es IH]; intros fd; [done|].
  cbn [fold_left]. rewrite IH, lookup_merge_entry, values_for_cons.
  by destruct (decide (k' = k)).
Qed.

Lemma fold_own_step_settled (k : string) (vs : list JsVal) (cur : option JsVal) :
  settled k cur = true -> fold_left (own_step k) vs cur = cur.
Proof.
  intros Hs. induction vs as [|v vs IH]; [done|].
  simpl. unfold own_step at 2. rewrite Hs, andb_false_r. apply IH.
Qed.

Lemma first_truthy_is_truthy (vs : list JsVal) (v : JsVal) :
  first_truthy vs = Some v -> truthy v = true.
Proof.
  intros H. by apply head_Some_elem_of, list_elem_of_filter in H as [H _].
Qed.

Lemma fold_own_step_unsettled (k : string) (vs : list JsVal) (cur : option JsVal) :
  settled k cur = false ->
  fold_left (own_step k) vs cur =
    match merged_value vs with Some v => Some v | None => cur end.
Proof.
  unfold merged_value, first_truthy. revert cur.
  induction vs as [|v vs IH]; intros cur Hs; [done|].
  cbn [fold_left]. unfold own_step at 2. rewrite Hs, andb_true_r.
  rewrite !filter_cons.
  destruct (decide (truthy v = true)) as [Ht|Ht].
  - assert (is_null v = false) as Hn by (by destruct v).
    rewrite Hn. simpl. by apply fold_own_step_settled.
  - assert (truthy v = false) as Ht' by (by destruct (truthy v)).
    destruct (is_null v) eqn:Hn; simpl.
    + by apply IH.
    + rewrite IH by done.
      destruct (head _); [done|]. rewrite last_cons. by destruct (last _).
Qed.

Lemma merged_value_unsettled (k : string) (vs : list JsVal) (v : JsVal) :
  first_truthy vs = None -> merged_value vs = Some v -> settled k (Some v) = false.
Proof.
  unfold merged_value. intros Hnone. rewrite Hnone. intros Hlast.
  apply last_Some_elem_of, list_elem_of_filter in Hlast as [_ Hin].
  simpl. destruct (truthy v) eqn:Ht; [|done].
  assert (v ∈ filter (fun v => truthy v = true) vs) as Hf
    by (by apply list_elem_of_filter).
  unfold first_truthy in Hnone. by destruct (filter _ vs); [apply elem_of_nil in Hf|].
Qed.

Lemma fold_own_step_twice (k : string) (vs : list JsVal) (cur : option JsVal) :
  fold_left (own_step k) vs (fold_left (own_step k) vs cur)
  = fold_left (own_step k) vs cur.
Proof.
  destruct (settled k cur) eqn:Hs.
  - rewrite (fold_own_step_settled k vs cur Hs).
    by apply fold_own_step_settled.
  - rewrite (fold_own_step_unsettled k vs cur Hs).
    destruct (merged_value vs) as [v|] eqn:Hm.
    + destruct (first_truthy vs) as [w|] eqn:Hf.
      * apply fold_own_step_settled. unfold merged_value in Hm. rewrite Hf in Hm.
        injection Hm as <-. simpl. by eapply first_truthy_is_truthy.
      * rewrite fold_own_step_unsettled by (by eapply merged_value_unsettled).
        by rewrite Hm.
    + rewrite fold_own_step_unsettled by done. by rewrite Hm.
Qed.

(** X6: for a key the record does not inherit, the merged record holds the
    first truthy value the documents offer for it; when there is none, the
    last offered value that is not [null]; when there is none either, the
    key is absent. *)
Theorem merged_value_of_key (docs : list ProcessedDoc) (key : string) :
  inherited key = false ->
  exists r, reconcile docs = Some r /\
    formData r !! key = merged_value (offered key docs).
Proof.
  intros Hi. rewrite reconcile_answers. eexists; split; [done|]. simpl.
  rewrite lookup_merge_entries, lookup_empty.
  rewrite fold_own_step_unsettled by (unfold settled; by rewrite Hi).
  unfold offered. by destruct (merged_value _).
Qed.

Lemma merged_value_of_key_witness :
  exists r, reconcile [doc_zero_wages; doc_wages_50000; doc_wages_75000] = Some r /\
    formData r !! "wages" = Some (JNum 50000).
Proof.
  apply (merged_value_of_key [doc_zero_wages; doc_wages_50000; doc_wages_75000]
           "wages").
  reflexivity.
Defined.

(** X7: merging a batch twice over gives the merged record and the missing
    fields of merging it once. *)
Theorem reconcile_twice (docs : list ProcessedDoc) :
  exists r r2, reconcile docs = Some r /\ reconcile (docs ++ docs) = Some r2 /\
    formData r2 = formData r /\ missingFields r2 = missingFields r.
Proof.
  rewrite !reconcile_answers. do 2 eexists. do 2 (split; [done|]). simpl.
  assert (fold_left merge_entry ((docs ++ docs) ≫= contribution) ∅
          = fold_left merge_entry (docs ≫= contribution) ∅) as Heq.
  { apply map_eq. intros k.
    rewrite bind_app, fold_left_app, !lookup_merge_entries.
    apply fold_own_step_twice. }
  by rewrite Heq.
Qed.

(** X8: a name every object inherits from [Object.prototype], such as
    [constructor] or [toString], never enters the merged record, whatever
    the documents hold under it. *)
Theorem inherited_names_never_merged (docs : list ProcessedDoc) (key : string) :
  inherited key = true ->
  exists r, reconcile docs = Some r /\ formData r !! key = None.
Proof.
  intros Hi. rewrite reconcile_answers. eexists; split; [done|]. simpl.
  by apply lookup_merge_entries_inherited.
Qed.

Lemma inherited_names_never_merged_witness :
  exists r, reconcile [doc_constructor] = Some r /\
    formData r !! "constructor" = None.
Proof.
  apply (inherited_names_never_merged [doc_constructor] "constructor").
  reflexivity.
Defined.

Lemma server_passes_iff (body : gmap string JsVal) :
  Server.generate_1040 body = Server.Generate body <->
  Forall (fun field => truthy (get body field) = true) Server.requiredFields.
Proof.
  assert (Server.missingFields body = [] <->
          Forall (fun field => truthy (get body field) = true)
            Server.requiredFields) as Hnone.
  { unfold Server.missingFields.
    rewrite <- (Forall_iff (fun field => ~ truthy (get body field) = false))
      by (intros f; by destruct (truthy _)).
    split.
    - intros Hnil. apply Forall_forall. intros f Hf Hfalse.
      assert (f ∈ filter (fun field => truthy (get body field) = false)
                Server.requiredFields) as Hin by (by apply list_elem_of_filter).
      rewrite Hnil in Hin. by apply elem_of_nil in Hin.
    - intros Hall. induction Hall as [|f l Hf _ IH]; [done|].
      rewrite filter_cons, decide_False by done. exact IH. }
  rewrite <- Hnone. unfold Server.generate_1040.
  destruct (Server.missingFields body) as [|f l]; simpl; [done|].
  split; discriminate.
Qed.

Lemma complete_record_required_truthy (docs : list ProcessedDoc) (r : Reconciled)
    (field : string) :
  reconcile docs = Some r -> missingFields r = [] ->
  field ∈ Server.requiredFields -> truthy (get (formData r) field) = true.
Proof.
  intros Hr Hm Hf.
  rewrite reconcile_answers in Hr. injection Hr as <-. simpl in *.
  rewrite check_missing_filter in Hm.
  destruct (truthy (get _ field)) eqn:Ht; [done|].
  assert (field ∈ filter
            (fun field =>
               not_set (fold_left merge_entry (docs ≫= contribution) ∅) field
               = true) requiredFields) as Hin.
  { apply list_elem_of_filter. split; [by rewrite not_set_falsy, Ht|].
    revert Hf. unfold Server.requiredFields, requiredFields.
    rewrite !elem_of_cons. intuition. }
  rewrite Hm in Hin. by apply elem_of_nil in Hin.
Qed.

(** X9: behind the sanitizing middleware the server's [/api/generate-1040]
    lets a body through exactly when the four required fields of the
    sanitized body read truthy, and otherwise answers 400 with the falsy
    ones in the order of its required list.  A record the reconciler
    reports complete passes when the sanitizer empties none of its four
    required strings; the record with the last name of one space is
    reported complete and is refused. *)
Theorem complete_record_passes_validation :
  (forall docs r, reconcile docs = Some r -> missingFields r = [] ->
     (forall field s, field ∈ Server.requiredFields ->
        formData r !! field = Some (JStr s) ->
        Sanitize.sanitizeString s <> EmptyString) ->
     Sanitize.api_generate_1040 (formData r)
     = Server.Generate (Sanitize.sanitizeInput (formData r))) /\
  (forall body,
     Sanitize.api_generate_1040 body
     = Server.Generate (Sanitize.sanitizeInput body) <->
     Forall (fun field =>
               truthy (get (Sanitize.sanitizeInput body) field) = true)
       Server.requiredFields) /\
  (forall body missing,
     Sanitize.api_generate_1040 body = Server.BadRequest missing ->
     missing <> [] /\ missing `sublist_of` Server.requiredFields /\
     forall field, field ∈ missing <->
       field ∈ Server.requiredFields /\
       truthy (get (Sanitize.sanitizeInput body) field) = false) /\
  (exists r missing,
     reconcile [doc_blank_last_name] = Some r /\ missingFields r = [] /\
     Sanitize.api_generate_1040 (formData r) = Server.BadRequest missing /\
     "lastName" ∈ missing).
Proof.
  split; [|split; [|split]].
  - intros docs r Hr Hm Hkept. apply server_passes_iff.
    apply Forall_forall. intros f Hf.
    pose proof (complete_record_required_truthy docs r f Hr Hm Hf) as Ht.
    revert Ht. unfold get, Sanitize.sanitizeInput. rewrite lookup_fmap.
    destruct (formData r !! f) as [v|] eqn:Hv; simpl; [|done].
    destruct v; try done. simpl. intros _.
    apply negb_true_iff, String.eqb_neq. by apply (Hkept f).
  - intros body. apply server_passes_iff.
  - intros body missing. unfold Sanitize.api_generate_1040, Server.generate_1040.
    case_bool_decide as Hlen; [|discriminate].
    intros [= <-].
    split; [intros Hnil; rewrite Hnil in Hlen; simpl in Hlen; lia|].
    split; [apply sublist_filter|].
    intros f. unfold Server.missingFields. rewrite list_elem_of_filter. tauto.
  - do 2 eexists. split; [reflexivity|]. split; [vm_compute; reflexivity|].
    split; [vm_compute; reflexivity|]. compute_done.
Qed.

Lemma complete_record_passes_validation_witness :
  exists r, reconcile [doc_complete] = Some r /\
    Sanitize.api_generate_1040 (formData r)
    = Server.Generate (Sanitize.sanitizeInput (formData r)).
Proof.
  eexists; split; [reflexivity|].
  apply (proj1 complete_record_passes_validation [doc_complete] _ eq_refl).
  - vm_compute. reflexivity.
  - intros field s Hf. cbn in Hf.
    repeat (apply elem_of_cons in Hf as [->|Hf];
            [intros Hs; vm_compute in Hs; injection Hs as <-;
             vm_compute; discriminate|]).
    apply elem_of_nil in Hf. destruct Hf.
Defined.

(** * Selection of the requested documents *)

Section RegistryFacts.

Import Registry.

Variable isValidObjectId : JsVal -> bool.
Variable castObjectId : JsVal -> option string.

Implicit Types (db : list StoredDocument) (ids : list string) (user : string).

Lemma find_ids_NoDup db ids user :
  NoDup (_id <$> db) -> NoDup (_id <$> Document_find db ids user).
Proof.
  intros Hnd. eapply sublist_NoDup; [exact Hnd|].
  apply fmap_sublist, sublist_filter.
Qed.

Lemma elem_of_find db ids user doc :
  doc ∈ Document_find db ids user <->
  doc ∈ db /\ _id doc ∈ ids /\ userId doc = user.
Proof. unfold Document_find. rewrite list_elem_of_filter. tauto. Qed.

Lemma find_length_le db ids user :
  NoDup (_id <$> db) -> length (Document_find db ids user) <= length ids.
Proof.
  intros Hnd. rewrite <- (length_fmap _id).
  apply submseteq_length, NoDup_submseteq; [by apply find_ids_NoDup|].
  intros i (doc & -> & Hdoc)%list_elem_of_fmap.
  by apply elem_of_find in Hdoc as (_ & Hin & _).
Qed.

(** The query returns as many documents as ids were asked for exactly when
    the ids are pairwise distinct and each one is a document of the user. *)
Lemma find_length_eq db ids user :
  NoDup (_id <$> db) ->
  length (Document_find db ids user) = length ids <->
  NoDup ids /\
  Forall (fun i => exists doc, doc ∈ db /\ _id doc = i /\ userId doc = user) ids.
Proof.
  intros Hnd. split.
  - intros Hlen.
    assert (_id <$> Document_find db ids user ≡ₚ ids) as Hperm.
    { apply submseteq_length_Permutation.
      - apply NoDup_submseteq; [by apply find_ids_NoDup|].
        intros i (doc & -> & Hdoc)%list_elem_of_fmap.
        by apply elem_of_find in Hdoc as (_ & Hin & _).
      - rewrite length_fmap. lia. }
    split.
    + rewrite <- Hperm. by apply find_ids_NoDup.
    + apply Forall_forall. intros i Hi. rewrite <- Hperm in Hi.
      apply list_elem_of_fmap in Hi as (doc & -> & Hdoc).
      apply elem_of_find in Hdoc as (Hdb & _ & Hu). by exists doc.
  - intros [Hids Hown]. apply Nat.le_antisymm; [by apply find_length_le|].
    rewrite <- (length_fmap _id (Document_find db ids user)).
    apply submseteq_length, NoDup_submseteq; [done|].
    intros i Hi. rewrite Forall_forall in Hown.
    destruct (Hown i Hi) as (doc & Hdb & <- & Hu).
    apply list_elem_of_fmap. exists doc. split; [done|].
    by apply elem_of_find.
Qed.

Lemma find_invalid_none (items : list JsVal) :
  List.find (fun id => negb (isValidObjectId id)) items = None
  <-> Forall (fun id => isValidObjectId id = true) items.
Proof.
  induction items as [|id items IH]; simpl; [by split|].
  rewrite Forall_cons. destruct (isValidObjectId id); simpl; [|split; [done|]].
  - rewrite IH. tauto.
  - by intros [? _].
Qed.

Lemma selected_inv db user (documentIds : JsVal) documents :
  select_documents isValidObjectId castObjectId db user documentIds
  = Selected documents ->
  exists items oids,
    documentIds = JArr items /\ items <> [] /\
    Forall (fun id => isValidObjectId id = true) items /\
    mapM castObjectId items = Some oids /\
    documents = Document_find db oids user /\
    length documents = length items.
Proof.
  intros Hsel. unfold select_documents in Hsel.
  destruct documentIds as [| | | | |items| |]; try discriminate.
  destruct items as [|id items]; [discriminate|].
  destruct (List.find _ _) eqn:Hfind; [discriminate|].
  destruct (mapM _ _) as [oids|] eqn:Hcast; [|discriminate].
  cbn zeta in Hsel. case_bool_decide as Hlen; [discriminate|].
  injection Hsel as <-.
  exists (id :: items), oids. split; [done|]. split; [done|].
  split; [by apply find_invalid_none|]. done.
Qed.

(** X10: when no two stored documents share an id, a request is let through
    exactly when [documentIds] is a non-empty array of valid ids that cast
    to pairwise distinct ids of documents of the user: naming a document
    twice, or a document of somebody else, refuses the whole request.  The
    documents let through are the user's, one per requested id. *)
Theorem selection_granted_iff db user (documentIds : JsVal) :
  NoDup (_id <$> db) ->
  ((exists documents,
      select_documents isValidObjectId castObjectId db user documentIds
      = Selected documents) <->
   exists items oids,
     documentIds = JArr items /\ items <> [] /\
     Forall (fun id => isValidObjectId id = true) items /\
     mapM castObjectId items = Some oids /\ NoDup oids /\
     Forall (fun i => exists doc, doc ∈ db /\ _id doc = i /\ userId doc = user)
       oids) /\
  (forall documents,
     select_documents isValidObjectId castObjectId db user documentIds
     = Selected documents ->
     Forall (fun doc => userId doc = user) documents /\
     exists items, documentIds = JArr items /\ length documents = length items).
Proof.
  intros Hnd. split; [split|].
  - intros [documents Hsel].
    apply selected_inv in Hsel
      as (items & oids & -> & Hne & Hval & Hcast & -> & Hlen).
    exists items, oids. do 4 (split; [done|]).
    apply find_length_eq; [done|]. rewrite Hlen. by eapply length_mapM.
  - intros (items & oids & -> & Hne & Hval & Hcast & Hnodup & Hown).
    exists (Document_find db oids user). unfold select_documents.
    destruct items as [|id items]; [done|].
    apply find_invalid_none in Hval. rewrite Hval, Hcast. cbn zeta.
    rewrite bool_decide_false; [done|].
    intros Hlen. apply Hlen.
    rewrite (proj2 (find_length_eq db oids user Hnd)) by done.
    symmetry. by eapply length_mapM.
  - intros documents Hsel.
    apply selected_inv in Hsel
      as (items & oids & -> & Hne & Hval & Hcast & -> & Hlen).
    split; [|by exists items].
    apply Forall_forall. intros doc Hdoc.
    by apply elem_of_find in Hdoc as (_ & _ & Hu).
Qed.

Lemma string_length_concat (l : list string) :
  String.length (fold_right String.append EmptyString l)
  = sum_list (String.length <$> l).
Proof.
  induction l as [|s l IH]; [done|]. simpl.
  by rewrite string_length_app, IH.
Qed.

Lemma first_letters_length (documents : list StoredDocument) :
  Forall (fun doc => filename doc <> EmptyString) documents ->
  String.length (firstLetters documents) = length documents.
Proof.
  unfold firstLetters. rewrite string_length_concat.
  induction 1 as [|doc docs Hdoc _ IH]; [done|].
  rewrite !fmap_cons. cbn [sum_list sum_list_with length]. rewrite IH.
  unfold firstLetter. destruct (filename doc) as [|c rest]; [done|].
  by destruct rest.
Qed.

(** X12: when every stored file name is non-empty, a request [/extract-first-letters]
    lets through is answered with exactly one letter per requested id. *)
Theorem first_letters_one_per_id (updateMany : JsVal -> bool)
    db user (documentIds : JsVal) (letters : string) :
  Forall (fun doc => filename doc <> EmptyString) db ->
  extract_first_letters isValidObjectId castObjectId updateMany db user
    documentIds = inr (Some letters) ->
  exists items, documentIds = JArr items /\ String.length letters = length items.
Proof.
  intros Hnames Hletters. unfold extract_first_letters in Hletters.
  destruct (select_documents _ _ _ _ _) as [| | | |documents] eqn:Hsel;
    try discriminate.
  destruct (updateMany documentIds); [|discriminate].
  injection Hletters as <-.
  apply selected_inv in Hsel
    as (items & oids & -> & Hne & Hval & Hcast & -> & Hlen).
  exists items. split; [done|]. rewrite <- Hlen.
  apply first_letters_length.
  rewrite Forall_forall in Hnames |- *. intros doc Hdoc.
  apply Hnames. by apply elem_of_find in Hdoc as [? _].
Qed.

End RegistryFacts.

(** The user [auth0|ada] is granted the two documents of that user, in the order of the
    collection; the same document named twice, or a document of another
    user, refuses the request. *)
Lemma selection_granted_iff_witness :
  Registry.select_documents Registry.valid24 Registry.cast24 Registry.db3
    "auth0|ada" (JArr [JStr Registry.id_b; JStr Registry.id_a])
  = Registry.Selected (Registry.Document_find Registry.db3
                         [Registry.id_b; Registry.id_a] "auth0|ada") /\
  Registry.select_documents Registry.valid24 Registry.cast24 Registry.db3
    "auth0|ada" (JArr [JStr Registry.id_a; JStr Registry.id_a])
  = Registry.AccessDenied /\
  Registry.select_documents Registry.valid24 Registry.cast24 Registry.db3
    "auth0|ada" (JArr [JStr Registry.id_a; JStr Registry.id_c])
  = Registry.AccessDenied.
Proof.
  split; [|split; reflexivity].
  destruct (proj2 (proj1 (selection_granted_iff Registry.valid24 Registry.cast24
              Registry.db3 "auth0|ada"
              (JArr [JStr Registry.id_b; JStr Registry.id_a])
              ltac:(compute_done)))) as [documents Hsel].
  - exists [JStr Registry.id_b; JStr Registry.id_a],
           [Registry.id_b; Registry.id_a].
    split; [reflexivity|]. split; [discriminate|].
    split; [repeat constructor|]. split; [reflexivity|].
    split; [compute_done|].
    repeat constructor.
    + exists (Registry.mkStored Registry.id_b "auth0|ada" "1099.pdf"
                "application/pdf" (Some "users/ada/1099.pdf") JUndefined).
      split; [|done]. apply list_elem_of_further, list_elem_of_here.
    + exists (Registry.mkStored Registry.id_a "auth0|ada" "w2.pdf"
                "application/pdf" (Some "users/ada/w2.pdf") JUndefined).
      split; [|done]. apply list_elem_of_here.
  - reflexivity.
Defined.

Lemma first_letters_one_per_id_witness :
  exists items,
    JArr [JStr Registry.id_a; JStr Registry.id_b] = JArr items /\
    String.length "w1" = length items.
Proof.
  apply (first_letters_one_per_id Registry.valid24 Registry.cast24
           (fun _ => true) Registry.db3 "auth0|ada"
           (JArr [JStr Registry.id_a; JStr Registry.id_b]) "w1").
  - repeat constructor; discriminate.
  - reflexivity.
Defined.

(** * [analyzeDocuments]: the last document wins *)

Section AnalysisFacts.

Import Analysis.

Implicit Types (docs : list ProcessedDoc) (key : string).

Lemma lookup_inserts (es : list (string * JsVal)) (obj : gmap string JsVal) key :
  fold_left (fun obj kv => <[kv.1 := kv.2]> obj) es obj !! key
  = match last (values_for key es) with
    | Some v => Some v
    | None => obj !! key
    end.
Proof.
  revert obj. induction es as [|[k v] es IH]; intros obj; [done|].
  cbn [fold_left]. rewrite IH, values_for_cons. simpl.
  destruct (decide (k = key)) as [->|Hne].
  - rewrite last_cons, lookup_insert_eq. by destruct (last _).
  - rewrite lookup_insert_ne by done. done.
Qed.

Lemma combine_fold docs (obj : gmap string JsVal) :
  fold_left
    (fun combined doc =>
       if truthy (analysis doc) then spread combined (analysis doc)
       else combined) docs obj
  = fold_left (fun obj kv => <[kv.1 := kv.2]> obj) (docs ≫= spread_entries) obj.
Proof.
  revert obj. induction docs as [|doc docs IH]; intros obj; [done|].
  cbn [fold_left]. rewrite IH, bind_cons, fold_left_app.
  unfold spread_entries, spread. by destruct (truthy (analysis doc)).
Qed.

Lemma lookup_combine docs key :
  combine docs !! key = last (values_for key (docs ≫= spread_entries)).
Proof.
  unfold combine. rewrite combine_fold, lookup_inserts, lookup_empty.
  by destruct (last _).
Qed.

Lemma elem_of_identify_missing (combinedData : gmap string JsVal) key :
  key ∈ identify_missing combinedData <->
  key ∈ requiredGroups /\ truthy (get combinedData key) = false.
Proof.
  unfold identify_missing, requiredGroups.
  destruct (truthy (get combinedData "personalInfo")) eqn:E1,
           (truthy (get combinedData "address")) eqn:E2,
           (truthy (get combinedData "income")) eqn:E3;
    simpl; rewrite ?elem_of_cons, ?elem_of_nil;
    (split; [intros H; repeat destruct H as [H|H]; subst; try done; auto 6
            |intros [H Hf]; repeat destruct H as [H|H]; subst;
             try congruence; auto 6]).
Qed.

(** X13: the combined data hold, for every key, the value of the last document
    that has the key, a [null] included, and with or without an error on
    the document: a later document overrides an earlier one. *)
Theorem combine_last_wins docs key :
  combine docs !! key = last (values_for key (docs ≫= spread_entries)) /\
  forall doc v,
    last (values_for key (spread_entries doc)) = Some v ->
    combine (docs ++ [doc]) !! key = Some v.
Proof.
  split; [apply lookup_combine|].
  intros doc v Hv. rewrite lookup_combine, bind_app, values_for_app.
  cbn [mbind list_bind]. rewrite app_nil_r.
  destruct (values_for key (spread_entries doc)) as [|w ws] using rev_ind;
    [done|].
  rewrite app_assoc, !last_snoc in *. done.
Qed.

End AnalysisFacts.

(** X14: a reply that holds a JSON text [JSON.parse] rejects still ends up in
    the extracted data of [analyzeDocuments]: the document carries an
    error, but its analysis holds the raw reply, and the [reduce] looks at
    the analysis only. *)
Theorem unparsed_reply_enters_extracted_data
    (JSON_parse : string -> option JsVal) (findOneAndUpdate : JsVal -> bool)
    (fetched : list Analysis.Fetch) (analysisText : string) (m : RegExpMatch) :
  jsonMatch analysisText = Some m ->
  JSON_parse (Str.trim (jsonStr_of m)) = None ->
  let result :=
    Analysis.analyzeDocuments JSON_parse findOneAndUpdate
      (fetched ++ [Analysis.Answered analysisText]) in
  Analysis.extractedData result !! "rawText" = Some (JStr analysisText) /\
  exists doc, last (Analysis.documents result) = Some doc /\
    error doc = JStr parse_failed_message.
Proof.
  intros Hm Hp result. subst result. unfold Analysis.analyzeDocuments.
  destruct (fetched ++ [Analysis.Answered analysisText]) as [|f l] eqn:E;
    [by destruct fetched|]. rewrite <- E. clear E. cbn zeta.
  cbn [Analysis.extractedData Analysis.documents].
  rewrite fmap_app. cbn [fmap list_fmap Analysis.analyse_doc].
  assert (Analysis.analyse_reply JSON_parse findOneAndUpdate analysisText
          = Analysis.unparsed analysisText) as ->.
  { unfold Analysis.analyse_reply. by rewrite Hm, Hp. }
  split.
  - rewrite lookup_combine, bind_app, values_for_app.
    change (values_for "rawText"
              ([Analysis.unparsed analysisText] ≫= Analysis.spread_entries))
      with [JStr analysisText].
    by rewrite last_snoc.
  - exists (Analysis.unparsed analysisText). by rewrite last_snoc.
Qed.

Lemma unparsed_reply_enters_extracted_data_witness :
  Analysis.extractedData
    (Analysis.analyzeDocuments Json.parse stored
       [Analysis.Answered Analysis.reply_income;
        Analysis.Answered Analysis.reply_broken]) !! "rawText"
  = Some (JStr Analysis.reply_broken).
Proof.
  apply (unparsed_reply_enters_extracted_data Json.parse stored
           [Analysis.Answered Analysis.reply_income] Analysis.reply_broken
           (mkMatch Analysis.reply_broken None)).
  - reflexivity.
  - reflexivity.
Defined.

(** X16: for [analyzeDocuments] adding a document can make a group missing
    again: whether a group the last document's analysis mentions is
    reported missing depends on that document alone. *)
Theorem last_document_decides_missing
    (JSON_parse : string -> option JsVal) (findOneAndUpdate : JsVal -> bool)
    (fetched : list Analysis.Fetch) (analysisText : string) (m : RegExpMatch)
    (props : list (string * JsVal)) (key : string) (v : JsVal) :
  jsonMatch analysisText = Some m ->
  JSON_parse (Str.trim (jsonStr_of m)) = Some (JObj props) ->
  findOneAndUpdate (JObj props) = true ->
  key ∈ Analysis.requiredGroups ->
  last (values_for key props) = Some v ->
  let result :=
    Analysis.analyzeDocuments JSON_parse findOneAndUpdate
      (fetched ++ [Analysis.Answered analysisText]) in
  Analysis.extractedData result !! key = Some v /\
  (key ∈ Analysis.missingFields result <-> truthy v = false).
Proof.
  intros Hm Hp Hs Hk Hv result. subst result. unfold Analysis.analyzeDocuments.
  destruct (fetched ++ [Analysis.Answered analysisText]) as [|f l] eqn:E;
    [by destruct fetched|]. rewrite <- E. clear E. cbn zeta.
  cbn [Analysis.extractedData Analysis.missingFields].
  rewrite fmap_app. cbn [fmap list_fmap Analysis.analyse_doc].
  assert (Analysis.analyse_reply JSON_parse findOneAndUpdate analysisText
          = mkDoc (JObj props) JUndefined JUndefined) as ->.
  { unfold Analysis.analyse_reply. by rewrite Hm, Hp, Hs. }
  assert (Analysis.combine
            ((Analysis.analyse_doc JSON_parse findOneAndUpdate <$> fetched)
             ++ [mkDoc (JObj props) JUndefined JUndefined]) !! key = Some v)
    as Hlook.
  { rewrite lookup_combine, bind_app, values_for_app.
    cbn [mbind list_bind]. rewrite app_nil_r.
    change (Analysis.spread_entries (mkDoc (JObj props) JUndefined JUndefined))
      with props.
    destruct (values_for key props) as [|w ws] using rev_ind; [done|].
    rewrite app_assoc, !last_snoc in *. done. }
  split; [done|].
  rewrite elem_of_identify_missing. unfold get. rewrite Hlook. tauto.
Qed.

Lemma last_document_decides_missing_witness :
  "income" ∈ Analysis.missingFields
    (Analysis.analyzeDocuments Json.parse stored
       [Analysis.Answered Analysis.reply_income;
        Analysis.Answered Analysis.reply_income_null]) /\
  ~ "income" ∈ Analysis.missingFields
    (Analysis.analyzeDocuments Json.parse stored
       [Analysis.Answered Analysis.reply_income]).
Proof.
  split.
  - apply (last_document_decides_missing Json.parse stored
             [Analysis.Answered Analysis.reply_income]
             Analysis.reply_income_null
             (mkMatch Analysis.reply_income_null None)
             [("income", JNull)] "income" JNull);
      try reflexivity.
    compute_done.
  - compute_done.
Defined.

Lemma combine_last_wins_witness :
  Analysis.combine
    ([analysed [("income", JNum 1)]] ++ [analysed [("income", JNull)]])
    !! "income" = Some JNull.
Proof.
  apply (proj2 (combine_last_wins [analysed [("income", JNum 1)]] "income")
           (analysed [("income", JNull)]) JNull).
  reflexivity.
Defined.

(** * The sanitizer *)

Section SanitizeFacts.

Import Sanitize.

Local Abbreviation chars := String.list_ascii_of_string.

Lemma remove_chars_sublist class (s : string) :
  chars (remove_chars class s) `sublist_of` chars s.
Proof.
  induction s as [|c s IH]; simpl; [done|].
  destruct (class c); simpl; [by apply sublist_cons|by apply sublist_skip].
Qed.

Lemma remove_chars_none class (s : string) (c : ascii) :
  c ∈ chars (remove_chars class s) -> class c = false.
Proof.
  induction s as [|d s IH]; simpl; [by intros ?%elem_of_nil|].
  destruct (class d) eqn:E; simpl; [done|].
  intros [->|?]%elem_of_cons; auto.
Qed.

Lemma remove_matches_sublist match_at (skip : nat) (s : string) :
  chars (remove_matches match_at skip s) `sublist_of` chars s.
Proof.
  revert skip. induction s as [|c s IH]; intros skip; simpl; [done|].
  destruct skip as [|n]; [|by apply sublist_cons].
  destruct (match_at (String c s)) as [[|n]|];
    simpl; first [by apply sublist_skip | by apply sublist_cons].
Qed.

Lemma trim_start_sublist (s : string) :
  chars (Str.trim_start s) `sublist_of` chars s.
Proof.
  induction s as [|c s IH]; simpl; [done|].
  destruct (Str.is_space c); simpl; [by apply sublist_cons|done].
Qed.

Lemma trim_end_sublist (s : string) :
  chars (Str.trim_end s) `sublist_of` chars s.
Proof.
  induction s as [|c s IH]; simpl; [done|].
  destruct (Str.trim_end s) as [|d r]; simpl in *.
  - destruct (Str.is_space c); simpl;
      [by apply sublist_cons | by apply sublist_skip].
  - by apply sublist_skip.
Qed.

Lemma trim_end_idemp (s : string) : Str.trim_end (Str.trim_end s) = Str.trim_end s.
Proof.
  induction s as [|c s IH]; simpl; [done|].
  destruct (Str.trim_end s) as [|d r] eqn:E.
  - destruct (Str.is_space c) eqn:Hc; simpl; [done|]. by rewrite Hc.
  - cbn [Str.trim_end] in *. by rewrite IH.
Qed.

Lemma trim_start_head (s : string) :
  match Str.trim_start s with
  | String c _ => Str.is_space c = false
  | EmptyString => True
  end.
Proof.
  induction s as [|c s IH]; simpl; [done|].
  destruct (Str.is_space c) eqn:E; simpl; done.
Qed.

Lemma trim_idemp (s : string) : Str.trim (Str.trim s) = Str.trim s.
Proof.
  unfold Str.trim. pose proof (trim_start_head s) as Hh.
  destruct (Str.trim_start s) as [|c t]; [done|].
  assert (exists r, Str.trim_end (String c t) = String c r) as [r Hr].
  { simpl. destruct (Str.trim_end t); [|eauto]. rewrite Hh. eauto. }
  rewrite Hr. cbn [Str.trim_start]. rewrite Hh, <- Hr. apply trim_end_idemp.
Qed.

Lemma chars_length (s : string) : length (chars s) = String.length s.
Proof. induction s as [|c s IH]; simpl; congruence. Qed.

Lemma sanitized_sublist (str : string) :
  chars (sanitizeString str) `sublist_of` chars (remove_chars is_angle str).
Proof.
  unfold sanitizeString, Str.trim.
  etrans; [apply trim_end_sublist|].
  etrans; [apply trim_start_sublist|].
  etrans; apply remove_matches_sublist.
Qed.

Lemma sanitized_no_angle (str : string) (c : ascii) :
  c ∈ chars (sanitizeString str) -> c <> "<"%char /\ c <> ">"%char.
Proof.
  intros Hc.
  assert (is_angle c = false) as Ha.
  { eapply remove_chars_none, sublist_subseteq; [apply sanitized_sublist|done]. }
  unfold is_angle in Ha. apply orb_false_elim in Ha as [H1 H2].
  by rewrite Ascii.eqb_neq in H1, H2.
Qed.

(** X17: what [sanitizeString] returns is made of characters of its argument, in
    their order, holds neither [<] nor [>], is not longer than the
    argument and has no white space at either end. *)
Theorem sanitized_string_properties (str : string) :
  chars (sanitizeString str) `sublist_of` chars str /\
  (forall c, c ∈ chars (sanitizeString str) -> c <> "<"%char /\ c <> ">"%char) /\
  String.length (sanitizeString str) <= String.length str /\
  Str.trim (sanitizeString str) = sanitizeString str.
Proof.
  assert (chars (sanitizeString str) `sublist_of` chars str) as Hsub
    by (etrans; [apply sanitized_sublist|apply remove_chars_sublist]).
  split; [done|]. split; [|split].
  - apply sanitized_no_angle.
  - rewrite <- !chars_length. by apply sublist_length.
  - apply trim_idemp.
Qed.

Lemma trim_end_keep (c : ascii) (s : string) :
  Str.is_space c = false ->
  Str.trim_end (String c s) = String c (Str.trim_end s).
Proof. intros Hc. simpl. destruct (Str.trim_end s); [by rewrite Hc|done]. Qed.

Lemma trim_end_keep_prefix (p s : string) :
  forallb (fun c => negb (Str.is_space c)) (chars p) = true ->
  Str.trim_end (p ++ s) = (p ++ Str.trim_end s)%string.
Proof.
  induction p as [|c p IH]; [done|]. simpl chars. cbn [forallb].
  intros [Hc Hp]%andb_true_iff. apply negb_true_iff in Hc.
  change (String c p ++ s)%string with (String c (p ++ s)).
  rewrite trim_end_keep, IH by done. done.
Qed.

(** X18: the removal of [javascript:] is done in one pass over the string and is
    not repeated on its result: whatever follows, the prefix
    [javajavascript:script:] leaves [javascript:] at the head of the
    sanitized string. *)
Theorem sanitized_string_can_start_with_javascript (rest : string) :
  exists tail,
    sanitizeString ("javajavascript:script:" ++ rest) = ("javascript:" ++ tail)%string.
Proof.
  exists (Str.trim_end
            (remove_matches match_on_handler 0
               (remove_matches match_javascript 0
                  (remove_chars is_angle rest)))).
  unfold sanitizeString, Str.trim.
  change (remove_chars is_angle ("javajavascript:script:" ++ rest))
    with ("javajavascript:script:" ++ remove_chars is_angle rest)%string.
  generalize (remove_chars is_angle rest). intros t1.
  change (remove_matches match_javascript 0 ("javajavascript:script:" ++ t1))
    with ("javascript:" ++ remove_matches match_javascript 0 t1)%string.
  generalize (remove_matches match_javascript 0 t1). intros t2.
  change (remove_matches match_on_handler 0 ("javascript:" ++ t2))
    with ("javascript:" ++ remove_matches match_on_handler 0 t2)%string.
  generalize (remove_matches match_on_handler 0 t2). intros t3.
  change (Str.trim_start ("javascript:" ++ t3)) with ("javascript:" ++ t3)%string.
  by apply trim_end_keep_prefix.
Qed.

(** X20: behind the middleware, [/api/generate-1040] hands [generate1040Form] a
    body whose strings at the top level hold neither [<] nor [>] and whose
    other values, nested strings included, are those of the request; a
    [firstName] that the sanitizer empties is reported missing. *)
Theorem sanitized_body_reaches_generation (body : gmap string JsVal) :
  (forall formData, api_generate_1040 body = Server.Generate formData ->
     formData = sanitizeInput body /\
     (forall key s c, formData !! key = Some (JStr s) -> c ∈ chars s ->
        c <> "<"%char /\ c <> ">"%char) /\
     (forall key v, body !! key = Some v ->
        (forall s, v <> JStr s) -> formData !! key = Some v)) /\
  (forall s, body !! "firstName" = Some (JStr s) ->
     sanitizeString s = EmptyString ->
     exists missing, api_generate_1040 body = Server.BadRequest missing /\
       "firstName" ∈ missing).
Proof.
  split.
  - intros formData. unfold api_generate_1040, Server.generate_1040.
    case_bool_decide; [discriminate|]. intros [= <-].
    split; [done|]. split.
    + intros key s c Hs Hc. unfold sanitizeInput in Hs.
      rewrite lookup_fmap in Hs.
      destruct (body !! key) as [[]|]; simpl in Hs; try discriminate.
      injection Hs as <-. by eapply sanitized_no_angle.
    + intros key v Hv Hns. unfold sanitizeInput.
      rewrite lookup_fmap, Hv. simpl. destruct v; try done.
      by destruct (Hns s).
  - intros s Hs Hempty.
    assert ("firstName" ∈ Server.missingFields (sanitizeInput body)) as Hin.
    { unfold Server.missingFields. apply list_elem_of_filter.
      split; [|apply list_elem_of_here].
      unfold get, sanitizeInput. rewrite lookup_fmap, Hs. simpl.
      by rewrite Hempty. }
    exists (Server.missingFields (sanitizeInput body)). split; [|done].
    unfold api_generate_1040, Server.generate_1040.
    rewrite bool_decide_true; [done|].
    destruct (Server.missingFields _); [by apply elem_of_nil in Hin|simpl; lia].
Qed.

End SanitizeFacts.

Lemma sanitized_body_reaches_generation_witness :
  exists missing,
    Sanitize.api_generate_1040
      {[ "firstName" := JStr "  <> "; "lastName" := JStr "Byron" ]}
    = Server.BadRequest missing /\ "firstName" ∈ missing.
Proof.
  apply (proj2 (sanitized_body_reaches_generation
                  {[ "firstName" := JStr "  <> "; "lastName" := JStr "Byron" ]})
           "  <> ").
  - reflexivity.
  - reflexivity.
Defined.

(** * The chat history *)

Section ChatFacts.

Import Chat.

Variable converse : list Entry -> JsVal -> list Entry * option string.

Implicit Types (store : gmap string (list Entry)) (history : list Entry).

Lemma limit_length history : length (limit history) <= 10.
Proof.
  unfold limit. destruct (10 <? length history)%nat eqn:E.
  - rewrite length_drop. apply Nat.ltb_lt in E. lia.
  - apply Nat.ltb_ge in E. lia.
Qed.

Lemma limit_last history (e : Entry) : last (limit (history ++ [e])) = Some e.
Proof.
  unfold limit. destruct (10 <? _)%nat eqn:E; [|apply last_snoc].
  rewrite length_app in *. simpl in *.
  rewrite drop_app_le by lia.
  by rewrite last_snoc.
Qed.

Lemma limit_suffix history : limit history `suffix_of` history.
Proof. unfold limit. destruct (10 <? _)%nat; [apply suffix_drop|done]. Qed.

(** X21: after a request that is answered, the user's stored history has at most
    10 entries, the last one being the reply; whatever the outcome, the
    histories of the other users are untouched, and a request refused with
    401 or 400 changes nothing. *)
Theorem chat_history_is_limited store (userId : option string) (message : JsVal) :
  let '(response, store') := chat converse store userId message in
  (forall aiMessage, response = Answer aiMessage ->
     exists user history,
       userId = Some user /\ store' !! user = Some history /\
       length history <= 10 /\
       last history = Some (mkEntry "assistant" (JStr aiMessage))) /\
  (forall other, userId <> Some other -> store' !! other = store !! other) /\
  (response = Unauthorized \/ response = MessageRequired -> store' = store).
Proof.
  unfold chat. destruct userId as [user|]; [|by repeat split].
  destruct (String.eqb user EmptyString); [by repeat split|].
  destruct (negb (truthy message)); [by repeat split|].
  assert (forall previous,
    let '(response, store') :=
      let '(history, reply) :=
        converse (previous ++ [mkEntry "user" message]) message in
      match reply with
      | None => (Failed, <[user := history]> store)
      | Some aiMessage =>
          (Answer aiMessage,
           <[user := limit (history ++ [mkEntry "assistant" (JStr aiMessage)])]>
             store)
      end in
    (forall aiMessage, response = Answer aiMessage ->
       exists user0 history,
         Some user = Some user0 /\ store' !! user0 = Some history /\
         length history <= 10 /\
         last history = Some (mkEntry "assistant" (JStr aiMessage))) /\
    (forall other, Some user <> Some other -> store' !! other = store !! other) /\
    (response = Unauthorized \/ response = MessageRequired -> store' = store))
    as Hcase.
  { intros previous. destruct (converse _ _) as [history [aiMessage|]].
    - split; [|split].
      + intros ? [= <-]. eexists user, _. split; [done|].
        rewrite lookup_insert_eq. split; [done|].
        split; [apply limit_length|apply limit_last].
      + intros other Hne. apply lookup_insert_ne. congruence.
      + by intros [|].
    - split; [done|]. split; [|by intros [|]].
      intros other Hne. apply lookup_insert_ne. congruence. }
  destruct (store !! user) as [previous|]; [apply Hcase|].
  destruct (inherited user); [by repeat split|]. apply (Hcase []).
Qed.

(** X22: the limit of 10 is applied on the answered path only.  When the model
    throws and leaves the array as it is, the message of the failed request
    stays in the history: after a run of such requests by one user the
    history is longer by one entry per request, beyond any limit. *)
Theorem failed_requests_accumulate store (user : string) (previous : list Entry)
    (messages : list JsVal) :
  (forall history message, converse history message = (history, None)) ->
  store !! user = Some previous ->
  user <> EmptyString ->
  Forall (fun message => truthy message = true) messages ->
  serve converse store ((fun message => (Some user, message)) <$> messages)
  = ((fun _ => Failed) <$> messages,
     <[user := previous ++ (mkEntry "user" <$> messages)]> store).
Proof.
  intros Hthrows Hprev Huser Hall. revert store previous Hprev.
  induction Hall as [|message messages Hm _ IH]; intros store previous Hprev.
  - simpl. by rewrite app_nil_r, insert_id.
  - cbn [fmap list_fmap serve]. unfold chat at 1.
    apply String.eqb_neq in Huser. rewrite Huser, Hm, Hprev. simpl negb.
    cbn iota. rewrite Hthrows.
    rewrite (IH _ (previous ++ [mkEntry "user" message]))
      by apply lookup_insert_eq.
    by rewrite insert_insert_eq, <- app_assoc.
Qed.

End ChatFacts.

Lemma chat_history_is_limited_witness :
  exists history,
    (Chat.chat Chat.always_answers ∅ (Some "auth0|ada") (JStr "Hello")).2
      !! "auth0|ada" = Some history /\
    length history <= 10 /\
    last history = Some (Chat.mkEntry "assistant" (JStr "It depends.")).
Proof.
  pose proof (chat_history_is_limited Chat.always_answers ∅
                (Some "auth0|ada") (JStr "Hello")) as H.
  destruct (Chat.chat Chat.always_answers ∅ (Some "auth0|ada") (JStr "Hello"))
    as [response store'] eqn:E.
  injection E as <- <-.
  destruct H as [H _].
  destruct (H "It depends." eq_refl) as (user & history & [= <-] & Hl & Hlen & Hlast).
  exists history. simpl. by rewrite Hl.
Defined.

Lemma failed_requests_accumulate_witness :
  exists history,
    (Chat.serve Chat.always_throws {[ "auth0|ada" := [] ]}
       ((fun message => (Some "auth0|ada", message))
          <$> replicate 12 (JStr "Hello"))).2 !! "auth0|ada" = Some history /\
    length history = 12.
Proof.
  rewrite (failed_requests_accumulate Chat.always_throws
             {[ "auth0|ada" := [] ]} "auth0|ada" [] (replicate 12 (JStr "Hello"))).
  - eexists. split; [apply lookup_insert_eq|reflexivity].
  - reflexivity.
  - apply lookup_singleton_eq.
  - discriminate.
  - repeat constructor.
Defined.

(** * The completion of the form *)

Section CompleteFormFacts.

Import CompleteForm.

Variable parseFloat : JsVal -> option Q.
Variable JSON_parse : string -> option JsVal.

Lemma lookup_assign (obj : gmap string JsVal) (k key : string) (v : JsVal) :
  key <> "__proto__" ->
  assign obj k v !! key = if decide (k = key) then Some v else obj !! key.
Proof.
  intros Hkey. unfold assign. case_bool_decide as Hp.
  - destruct Hp as [-> _]. by rewrite decide_False.
  - destruct (decide (k = key)) as [->|Hne];
      [apply lookup_insert_eq|by apply lookup_insert_ne].
Qed.

Lemma lookup_assigns (es : list (string * JsVal)) (obj : gmap string JsVal)
    (key : string) :
  key <> "__proto__" ->
  fold_left (fun obj kv => assign obj kv.1 (coerce parseFloat kv.1 kv.2)) es obj
    !! key
  = match last (values_for key es) with
    | Some v => Some (coerce parseFloat key v)
    | None => obj !! key
    end.
Proof.
  intros Hkey. revert obj. induction es as [|[k v] es IH]; intros obj; [done|].
  cbn [fold_left]. rewrite IH, values_for_cons, lookup_assign by done. simpl.
  destruct (decide (k = key)) as [->|Hne]; [|done].
  rewrite last_cons. by destruct (last _).
Qed.

(** X23: when the model's reply holds no JSON text that parses, the route answers
    with the merged data: under every key of [additionalInfo] the last value
    given for it, turned into a number when the field is numeric (0 when it
    does not read as one), and under every other key what
    [currentFormData] holds.  ([__proto__] apart.) *)
Theorem unusable_reply_keeps_merged_data
    (currentFormData additionalInfo : JsVal) (enhancedText : string)
    (entries : list (string * JsVal)) :
  truthy currentFormData = true ->
  Object_entries additionalInfo = Some entries ->
  (forall m, jsonMatch enhancedText = Some m ->
     JSON_parse (Str.trim (jsonStr_of m)) = None) ->
  exists updatedFormData,
    complete_tax_form parseFloat JSON_parse currentFormData additionalInfo
      (Some enhancedText) = Kept updatedFormData /\
    (forall key, key <> "__proto__" ->
       updatedFormData !! key =
         match last (values_for key entries) with
         | Some v => Some (coerce parseFloat key v)
         | None => Analysis.spread ∅ currentFormData !! key
         end) /\
    (forall key, key ∈ numericFields -> values_for key entries <> [] ->
       exists q, updatedFormData !! key = Some (JNum q)).
Proof.
  intros Ht He Hreply. unfold complete_tax_form, merge_additional.
  rewrite Ht, He. simpl.
  eexists. split.
  - destruct (jsonMatch enhancedText) as [m|] eqn:Hm; [|done].
    by rewrite (Hreply m eq_refl).
  - split; [intros key Hkey; by apply lookup_assigns|].
    intros key Hnum Hvals.
    assert (key <> "__proto__") as Hkey by (intros ->; revert Hnum; compute_done).
    rewrite lookup_assigns by done.
    destruct (values_for key entries) as [|v vs] using rev_ind; [done|].
    rewrite last_snoc. unfold coerce. rewrite bool_decide_true by done. eauto.
Qed.

End CompleteFormFacts.

Lemma unusable_reply_keeps_merged_data_witness :
  exists updatedFormData,
    CompleteForm.complete_tax_form CompleteForm.parseFloat_json Json.parse
      CompleteForm.current_form CompleteForm.additional_info (Some reply_prose)
    = CompleteForm.Kept updatedFormData /\
    updatedFormData !! "interest" = Some (JNum (2401 # 2)) /\
    updatedFormData !! "dividends" = Some (JNum 0) /\
    updatedFormData !! "wages" = Some (JNum 75000).
Proof.
  destruct (unusable_reply_keeps_merged_data CompleteForm.parseFloat_json
              Json.parse CompleteForm.current_form CompleteForm.additional_info
              reply_prose
              [("interest", JStr "1200.50"); ("dividends", JStr EmptyString);
               ("lastName", JStr "Byron")])
    as (updated & Hkept & Hkeys & _).
  - reflexivity.
  - reflexivity.
  - intros m Hm. vm_compute in Hm. discriminate.
  - exists updated. split; [done|].
    rewrite !Hkeys by discriminate. repeat split; vm_compute; reflexivity.
Defined.

(** * The selection of documents on the analysis page *)

Lemma toggle_elem_of (id other : string) (prev : list string) :
  other ∈ Client.handleDocumentSelect id prev <->
  if decide (other = id) then other ∉ prev else other ∈ prev.
Proof.
  unfold Client.handleDocumentSelect. case_bool_decide as Hin.
  - rewrite list_elem_of_filter. destruct (decide (other = id)) as [->|Hne].
    + split; [by intros [? _]|done].
    + tauto.
  - rewrite elem_of_app, list_elem_of_singleton.
    destruct (decide (other = id)) as [->|Hne]; tauto.
Qed.

Lemma toggle_NoDup (id : string) (prev : list string) :
  NoDup prev -> NoDup (Client.handleDocumentSelect id prev).
Proof.
  intros Hnd. unfold Client.handleDocumentSelect. case_bool_decide as Hin.
  - by apply NoDup_filter.
  - apply NoDup_app. split; [done|]. split; [|apply NoDup_singleton].
    intros x Hx ->%list_elem_of_singleton. done.
Qed.

(** X24: whatever the clicks, the selection names no document twice, and it
    names a document exactly when the document was clicked an odd number of
    times. *)
Theorem selection_by_parity (clicks : list string) :
  NoDup (selection_after clicks) /\
  forall id, id ∈ selection_after clicks <->
             Nat.odd (length (filter (fun c => c = id) clicks)) = true.
Proof.
  unfold selection_after.
  enough (forall start, NoDup start ->
    NoDup (fold_left (fun selected id => Client.handleDocumentSelect id selected)
             clicks start) /\
    forall id,
      id ∈ fold_left (fun selected id => Client.handleDocumentSelect id selected)
             clicks start <->
      xorb (bool_decide (id ∈ start))
           (Nat.odd (length (filter (fun c => c = id) clicks))) = true) as H.
  { destruct (H [] (NoDup_nil_2)) as [Hnd Hin]. split; [done|].
    intros id. rewrite Hin. by rewrite bool_decide_false by apply not_elem_of_nil. }
  induction clicks as [|c clicks IH]; intros start Hstart.
  - simpl. split; [done|]. intros id. rewrite xorb_false_r.
    by rewrite bool_decide_eq_true.
  - cbn [fold_left].
    destruct (IH _ (toggle_NoDup c start Hstart)) as [Hnd Hin].
    split; [done|]. intros id. rewrite Hin, filter_cons.
    destruct (decide (c = id)) as [->|Hne].
    + cbn [length]. rewrite Nat.odd_succ, <- Nat.negb_odd.
      assert (bool_decide (id ∈ Client.handleDocumentSelect id start)
              = negb (bool_decide (id ∈ start))) as ->.
      { pose proof (toggle_elem_of id id start) as Ht.
        rewrite decide_True in Ht by done.
        repeat case_bool_decide; tauto. }
      by destruct (bool_decide _), (Nat.odd _).
    + assert (bool_decide (id ∈ Client.handleDocumentSelect c start)
              = bool_decide (id ∈ start)) as ->; [|done].
      apply bool_decide_ext. rewrite toggle_elem_of. by rewrite decide_False.
Qed.

(** * The JSON text inside a reply *)

Lemma index_first_char (c : ascii) (pre rest : string) :
  c ∉ String.list_ascii_of_string pre ->
  String.index 0 (String c EmptyString) (pre ++ String c rest)
  = Some (String.length pre).
Proof.
  induction pre as [|d pre IH]; intros Hc.
  - simpl. destruct (ascii_dec c c); [|done]. by destruct rest.
  - simpl in Hc. apply not_elem_of_cons in Hc as [Hcd Hc].
    change (String d pre ++ String c rest)%string
      with (String d (pre ++ String c rest)).
    cbn [String.index String.prefix String.length].
    destruct (ascii_dec c d); [done|]. by rewrite IH.
Qed.

Lemma last_index_absent (c : ascii) (s : string) :
  c ∉ String.list_ascii_of_string s -> Str.last_index c s = None.
Proof.
  induction s as [|d s IH]; [done|]. simpl.
  intros [Hcd Hc]%not_elem_of_cons. rewrite IH by done.
  by apply Ascii.eqb_neq in Hcd as ->.
Qed.

Lemma last_index_last (c : ascii) (mid post : string) :
  c ∉ String.list_ascii_of_string post ->
  Str.last_index c (mid ++ String c post) = Some (String.length mid).
Proof.
  intros Hc. induction mid as [|d mid IH].
  - simpl. by rewrite last_index_absent, Ascii.eqb_refl.
  - change (String d mid ++ String c post)%string
      with (String d (mid ++ String c post)).
    cbn [Str.last_index String.length]. by rewrite IH.
Qed.

Lemma substring_skip_cons (a t : string) (c : ascii) (n : nat) :
  String.substring (S (String.length a)) n (a ++ String c t)
  = String.substring 0 n t.
Proof. induction a as [|d a IH]; [done|]. simpl. apply IH. Qed.

Lemma substring_prefix (a b : string) :
  String.substring 0 (String.length a) (a ++ b) = a.
Proof.
  induction a as [|c a IH]; [by destruct b|].
  change (String c a ++ b)%string with (String c (a ++ b)).
  cbn [String.length String.substring]. by rewrite IH.
Qed.

(** X25: in a reply without a fenced block, the JSON text handed to [JSON.parse]
    runs from the first opening brace to the last closing brace: the prose
    before and after is dropped, whatever lies between the two braces. *)
Theorem braces_delimit_json_text (pre mid post : string) :
  "{"%char ∉ String.list_ascii_of_string pre ->
  "}"%char ∉ String.list_ascii_of_string post ->
  match_fenced (pre ++ "{" ++ mid ++ "}" ++ post) = None ->
  jsonMatch (pre ++ "{" ++ mid ++ "}" ++ post)
    = Some (mkMatch ("{" ++ mid ++ "}") None) /\
  (jsonStr_of <$> jsonMatch (pre ++ "{" ++ mid ++ "}" ++ post))
    = Some ("{" ++ mid ++ "}")%string.
Proof.
  intros Hpre Hpost Hfence.
  enough (match_braces (pre ++ "{" ++ mid ++ "}" ++ post)
          = Some (mkMatch ("{" ++ mid ++ "}") None)) as Hb.
  { unfold jsonMatch. rewrite Hfence, Hb. done. }
  unfold match_braces.
  assert (("{" ++ mid ++ "}" ++ post)%string = String "{" (mid ++ String "}" post))
    as -> by done.
  rewrite index_first_char by done. cbn [mbind option_bind].
  rewrite substring_skip_cons, substring_beyond.
  2:{ rewrite (string_length_app pre). cbn [String.length]. lia. }
  rewrite last_index_last by done. cbn [mbind option_bind]. do 2 f_equal.
  rewrite substring_skip_prefix.
  assert (String "{" (mid ++ String "}" post)
          = (String "{" (mid ++ "}") ++ post)%string) as ->.
  { change (String "{" (mid ++ "}") ++ post)%string
      with (String "{" ((mid ++ "}") ++ post)).
    f_equal. clear. induction mid as [|c mid IH]; [done|].
    change (String c mid ++ String "}" post)%string
      with (String c (mid ++ String "}" post)).
    by rewrite IH. }
  assert (String.length mid + 2 = String.length (String "{" (mid ++ "}"))) as ->.
  { cbn [String.length]. rewrite string_length_app. cbn [String.length]. lia. }
  apply substring_prefix.
Qed.

Lemma braces_delimit_json_text_witness :
  (jsonStr_of <$> jsonMatch ("Here is the data: " ++ "{" ++ " x " ++ "}" ++ " Bye."))
  = Some "{ x }".
Proof.
  apply (braces_delimit_json_text "Here is the data: " " x " " Bye.").
  - compute_done.
  - compute_done.
  - reflexivity.
Defined.

